(** * URL analyzer and download-link extractor: a shallow embedding

    The development follows [app/agents.py] (the LangGraph pipeline behind
    the HTTP endpoint) and [streamlit_app.py] (the same logic behind the
    dashboard).  Python strings are kept as byte strings holding their
    UTF-8 encoding: substring, prefix and suffix tests and splitting on an
    ASCII separator agree on both views.  Dictionaries whose keys are
    fixed by a class declaration become records; dictionaries built as
    [Dict[str, Any]] literals become [gmap string val].  Everything the
    code obtains from outside (urllib, requests, BeautifulSoup, pyppeteer)
    is read from an explicit environment, and every call that leaves the
    process is written to a log.  [str.lower] is a parameter of the
    pipeline, so that the results hold for the Unicode lowering as well as
    for its ASCII part, which the concrete runs use.  The nodes of the
    graph are run in the order its edges give, on one state. *)

From Stdlib Require Import Ascii.
From stdpp Require Import gmap strings list.

Open Scope string_scope.

(** ** Python string methods *)

Module Py.

(** [s.startswith(p)] *)
Definition startswith (s p : string) : bool := String.prefix p s.

(** [s.endswith(p)] *)
Definition endswith (s p : string) : bool :=
  let n := String.length s in
  let m := String.length p in
  (m <=? n)%nat && String.eqb (String.substring (n - m) m s) p.

(** [sub in s] *)
Fixpoint contains (sub s : string) : bool :=
  String.prefix sub s ||
  match s with
  | "" => false
  | String _ s' => contains sub s'
  end.

(** [s.split(sep)] for a one-character separator *)
Fixpoint split (sep : ascii) (s : string) : list string :=
  match s with
  | "" => [""]
  | String c s' =>
      if Ascii.eqb c sep then "" :: split sep s'
      else match split sep s' with
           | h :: t => String c h :: t
           | [] => [String c ""]
           end
  end.

(** [sep.join(l)] *)
Fixpoint join (sep : string) (l : list string) : string :=
  match l with
  | [] => ""
  | [x] => x
  | x :: t => x +:+ sep +:+ join sep t
  end.

(** [l[:-1]] *)
Definition all_but_last {A} (l : list A) : list A := removelast l.

(** [l[-1]]; the only list it is applied to comes from [split], which is
    never empty, so the default is never returned. *)
Definition last_item (l : list string) : string := List.last l "".

(** [any(f(x) for x in l)] *)
Definition any {A} (f : A → bool) (l : list A) : bool := existsb f l.

(** The action of [str.lower] on the ASCII letters.  The pipeline is
    parametric in the lowering function; this instance agrees with
    Python's on every string made of ASCII characters. *)
Definition ascii_lower_char (c : ascii) : ascii :=
  let n := nat_of_ascii c in
  if (65 <=? n)%nat && (n <=? 90)%nat then ascii_of_nat (n + 32) else c.

Fixpoint ascii_lower (s : string) : string :=
  match s with
  | "" => ""
  | String c s' => String (ascii_lower_char c) (ascii_lower s')
  end.

End Py.

(** ** Static configuration (the two tables repeated in every function) *)

Definition download_keywords : list string :=
  ["download"; "descargar"; "télécharger"; "herunterladen"; "скачать"].

Definition file_extensions : list string :=
  [".zip"; ".pdf"; ".exe"; ".dmg"; ".tar.gz"; ".mp4"; ".mp3";
   ".doc"; ".docx"; ".xls"; ".xlsx"].

(** ** What [urllib.parse.urlparse] returns (the fields the code reads) *)

Record ParseResult := mkParse {
  scheme : string;
  netloc : string;
  path : string
}.

(** ** Link normalisation: lines 129-146 of [extract_download_links] *)

Definition base_domain (parsed_base : ParseResult) : string :=
  scheme parsed_base +:+ "://" +:+ netloc parsed_base.

(** The body of the loop [for link in download_links]. *)
Definition absolute_link (parsed_base : ParseResult) (link : string) : string :=
  if Py.startswith link "http" then link
  else if Py.startswith link "//" then scheme parsed_base +:+ ":" +:+ link
  else if Py.startswith link "/" then base_domain parsed_base +:+ link
  else
    let path :=
      Py.join "/" (Py.all_but_last (Py.split "/" (path parsed_base))) +:+ "/" in
    base_domain parsed_base +:+ path +:+ link.

Definition absolute_links (parsed_base : ParseResult) (download_links : list string)
  : list string :=
  map (absolute_link parsed_base) download_links.

(** ** Values of the [Dict[str, Any]] dictionaries *)

Inductive val :=
  | VNone
  | VBool (b : bool)
  | VInt (n : Z)
  | VStr (s : string)
  | VList (l : list string).

(** Python truth value *)
Definition truthy (v : val) : bool :=
  match v with
  | VNone => false
  | VBool b => b
  | VInt n => negb (n =? 0)%Z
  | VStr s => negb (String.eqb s "")
  | VList l => negb (bool_decide (l = []))
  end.

Definition of_opt_str (o : option string) : val :=
  match o with
  | Some s => VStr s
  | None => VNone
  end.

(** [d.get(k)] and [d.get(k, dflt)] *)
Definition dict_get (d : gmap string val) (k : string) : val :=
  default VNone (d !! k).

Definition dict_get_or (d : gmap string val) (k : string) (dflt : val) : val :=
  default dflt (d !! k).

(** ** The outside world *)

(** An [<a>] element as BeautifulSoup shows it: [a_tag['href']],
    [a_tag.text], [a_tag.get('download')]. *)
Record ATag := mkATag {
  href : string;
  text : string;
  download : option string
}.

(** The parsed document: [soup.find("title")] (its text) and
    [soup.find_all('a', href=True)] in document order. *)
Record Soup := mkSoup {
  title_tag : option string;
  a_tags : list ATag
}.

(** A [requests.Response]: the two headers the code reads, the decoded
    body, the status, [len(response.content)], and the message of the
    [HTTPError] that [raise_for_status] raises, when it raises. *)
Record Response := mkResponse {
  content_type_header : option string;
  content_disposition_header : option string;
  resp_text : string;
  status_code : Z;
  content_len : Z;
  http_error : option string
}.

(** The rendered page: [page.title()] and, for each element of
    [querySelectorAll('a[href]')] in DOM order, [element.href] and
    [element.textContent]. *)
Record Page := mkPage {
  page_title : string;
  elements : list (string * string)
}.

(** Exceptions are kept as [str(e)]. *)
Definition exn := string.

(** The collaborators.  [render] stands for the browser session from
    [launch] to [browser.close()]: it answers with an exception when any
    of its calls raises. *)
Record Env := mkEnv {
  urlparse : string → exn + ParseResult;
  requests_get : string → exn + Response;
  BeautifulSoup : string → exn + Soup;
  render : string → exn + Page
}.

(** Calls that leave the process. *)
Inductive event :=
  | HttpGet (url : string)
  | BrowserLaunch (url : string).

(** ** A monad for [try] bodies: a store that keeps its mutations when an
    exception is raised, and a result that is a value or an exception. *)

Definition M (S A : Type) : Type := S → (exn + A) * S.

Definition ret {S A} (a : A) : M S A := λ s, (inr a, s).

Definition bind {S A B} (m : M S A) (k : A → M S B) : M S B :=
  λ s, match m s with
       | (inl e, s') => (inl e, s')
       | (inr a, s') => k a s'
       end.

Definition raise {S A} (e : exn) : M S A := λ s, (inl e, s).

Definition lift {S A} (r : exn + A) : M S A := λ s, (r, s).

Definition modify {S} (f : S → S) : M S unit := λ s, (inr (), f s).

(** [try: body  except Exception as e: handler(e)] *)
Definition try_except {S} (body : M S unit) (handler : exn → S → S) : S → S :=
  λ s, match body s with
       | (inl e, s') => handler e s'
       | (inr _, s') => s'
       end.

Declare Scope py_scope.
Delimit Scope py_scope with py.
Notation "x <- m ;; k" := (bind m (λ x, k))
  (at level 100, m at next level, right associativity) : py_scope.
Notation "m ;;; k" := (bind m (λ _, k))
  (at level 100, right associativity) : py_scope.

(** ** [class AgentState(dict)] *)

Record AgentState := mkState {
  url : string;
  analysis : option (gmap string val);
  download_links : option (list string);
  error : option string;
  needs_browser : option bool;
  final_result : option (gmap string val)
}.

(** [{"url": url}], the state both endpoints of [main.py] start from. *)
Definition initial_state (u : string) : AgentState :=
  mkState u None None None None None.

(** [state[key] = value] *)
Definition set_analysis (a : gmap string val) (st : AgentState) : AgentState :=
  mkState (url st) (Some a) (download_links st) (error st) (needs_browser st)
          (final_result st).

Definition set_download_links (l : list string) (st : AgentState) : AgentState :=
  mkState (url st) (analysis st) (Some l) (error st) (needs_browser st)
          (final_result st).

Definition set_error (e : string) (st : AgentState) : AgentState :=
  mkState (url st) (analysis st) (download_links st) (Some e) (needs_browser st)
          (final_result st).

Definition set_needs_browser (b : bool) (st : AgentState) : AgentState :=
  mkState (url st) (analysis st) (download_links st) (error st) (Some b)
          (final_result st).

Definition set_final_result (r : gmap string val) (st : AgentState) : AgentState :=
  mkState (url st) (analysis st) (download_links st) (error st) (needs_browser st)
          (Some r).

(** The agent's state together with the log of outside calls. *)
Record Machine := mkMachine {
  state : AgentState;
  log : list event
}.

Definition on_state (f : AgentState → AgentState) (m : Machine) : Machine :=
  mkMachine (f (state m)) (log m).

Definition emit (e : event) (m : Machine) : Machine :=
  mkMachine (state m) (log m ++ [e]).

(** ** The regular expression of [analyze_url]

    [filename=Q?([^Q]+)Q?], writing Q for the double quote character. *)

Definition dquote : ascii := "034"%char.

(** The longest run of characters other than the double quote. *)
Fixpoint not_quote_run (s : string) : string :=
  match s with
  | "" => ""
  | String c s' => if Ascii.eqb c dquote then "" else String c (not_quote_run s')
  end.

Fixpoint drop_prefix (n : nat) (s : string) : string :=
  match n, s with
  | O, _ => s
  | S n', String _ s' => drop_prefix n' s'
  | S _, "" => ""
  end.

(** A match of the pattern anchored at the start of [s]; the result is
    group 1.  The optional opening quote is taken when present, and the
    group needs at least one character, which must not be a quote either
    way; the optional closing quote never fails. *)
Definition filename_match_here (s : string) : option string :=
  if String.prefix "filename=" s then
    let rest := drop_prefix 9 s in
    let rest' := match rest with
                 | String c r => if Ascii.eqb c dquote then r else rest
                 | "" => rest
                 end in
    let group := not_quote_run rest' in
    if String.eqb group "" then None else Some group
  else None.

(** [re.search] with that pattern: the leftmost match, as
    [filename_match.group(1)]. *)
Fixpoint re_search_filename (s : string) : option string :=
  match filename_match_here s with
  | Some g => Some g
  | None =>
      match s with
      | "" => None
      | String _ s' => re_search_filename s'
      end
  end.

(** ** The pipeline of [app/agents.py] *)

Inductive Node :=
  | START
  | N_analyze_url
  | N_analyze_with_browser
  | N_prepare_final_result
  | END.

Module Agents.
Section Pipeline.

(** [str.lower] and the collaborators. *)
Variable lower : string → string.
Variable env : Env.

Local Open Scope py_scope.

(** Lines 56-72: the direct-download check, as the pair
    [(is_direct_download, filename)]. *)
Fixpoint extension_loop (u : string) (exts : list string)
    (acc : bool * option string) : bool * option string :=
  match exts with
  | [] => acc
  | ext :: rest =>
      if Py.endswith (lower u) ext
      then (true, Some (Py.last_item (Py.split "/" u)))      (* break *)
      else extension_loop u rest acc
  end.

Definition direct_download_check (u content_disposition : string)
  : bool * option string :=
  let is_direct_download := false in
  let filename := None in
  let '(is_direct_download, filename) :=
    if Py.contains "attachment" content_disposition then
      (true,
       match re_search_filename content_disposition with
       | Some g => Some g
       | None => filename
       end)
    else (is_direct_download, filename) in
  extension_loop u file_extensions (is_direct_download, filename).

(** Lines 111-127: the tests applied to one [a_tag]. *)
Definition static_accepts (a_tag : ATag) : bool :=
  let href := href a_tag in
  let text := lower (text a_tag) in
  if bool_decide (download a_tag ≠ None) then true
  else if Py.any (λ keyword, Py.contains keyword text
                             || Py.contains keyword (lower href))
                 download_keywords then true
  else Py.any (λ ext, Py.endswith (lower href) ext) file_extensions.

Fixpoint static_loop (tags : list ATag) : list string :=
  match tags with
  | [] => []
  | a_tag :: rest =>
      if static_accepts a_tag then href a_tag :: static_loop rest
      else static_loop rest
  end.

(** [extract_download_links(html_content, base_url)] *)
Definition extract_download_links {S} (html_content base_url : string)
  : M S (list string) :=
  soup <- lift (BeautifulSoup env html_content) ;;
  let download_links := static_loop (a_tags soup) in
  parsed_base <- lift (urlparse env base_url) ;;
  ret (absolute_links parsed_base download_links).

(** The body of the [try] of [analyze_url]. *)
Definition analyze_url_try (u : string) : M Machine unit :=
  parsed_url <- lift (urlparse env u) ;;
  if String.eqb (scheme parsed_url) "" || String.eqb (netloc parsed_url) "" then
    modify (on_state (set_error "Invalid URL format"))        (* return state *)
  else
    modify (emit (HttpGet u)) ;;;
    response <- lift (requests_get env u) ;;
    match http_error response with                          (* raise_for_status *)
    | Some e => raise e
    | None => ret ()
    end ;;;
    let content_type := default "" (content_type_header response) in
    let is_html := Py.contains "text/html" content_type in
    title <- (if is_html then
                soup <- lift (BeautifulSoup env (resp_text response)) ;;
                ret (title_tag soup)
              else ret None) ;;
    let content_disposition := default "" (content_disposition_header response) in
    let '(is_direct_download, filename) :=
      direct_download_check u content_disposition in
    modify (on_state (set_analysis
      (<["url" := VStr u]>
       (<["title" := of_opt_str title]>
       (<["content_type" := VStr content_type]>
       (<["is_html" := VBool is_html]>
       (<["is_direct_download" := VBool is_direct_download]>
       (<["filename" := of_opt_str filename]>
       (<["status_code" := VInt (status_code response)]>
       (<["size" := VInt (content_len response)]> ∅)))))))))) ;;;
    if is_html then
      download_links <- extract_download_links (resp_text response) u ;;
      modify (on_state (set_download_links download_links)) ;;;
      if bool_decide (download_links = []) then
        modify (on_state (set_needs_browser true))
      else ret ()
    else ret ().

(** [analyze_url(state)] *)
Definition analyze_url (m : Machine) : Machine :=
  let u := url (state m) in
  try_except (analyze_url_try u)
    (λ e, on_state (λ st,
       set_needs_browser true (set_error ("Error analyzing URL: " +:+ e) st)))
    m.

(** Lines 178-179: the test applied to one rendered element. *)
Definition browser_accepts (href text : string) : bool :=
  Py.any (λ keyword, Py.contains keyword (lower text)) download_keywords
  || Py.any (λ ext, Py.endswith (lower href) ext) file_extensions.

Fixpoint browser_loop (elems : list (string * string)) : list string :=
  match elems with
  | [] => []
  | (href, text) :: rest =>
      if browser_accepts href text then href :: browser_loop rest
      else browser_loop rest
  end.

(** [not state.get("analysis")] *)
Definition no_analysis (st : AgentState) : bool :=
  match analysis st with
  | None => true
  | Some a => bool_decide (a = ∅)
  end.

(** [not state.get("error")] *)
Definition no_error (st : AgentState) : bool :=
  negb (truthy (of_opt_str (error st))).

(** The body of the [try] of [analyze_with_browser]. *)
Definition analyze_with_browser_try (u : string) : M Machine unit :=
  modify (emit (BrowserLaunch u)) ;;;
  page <- lift (render env u) ;;
  let title := page_title page in
  let download_links := browser_loop (elements page) in
  modify (on_state (λ st,
    if no_analysis st then
      set_analysis
        (<["url" := VStr u]>
         (<["title" := VStr title]>
         (<["is_html" := VBool true]>
         (<["is_direct_download" := VBool false]>
         (<["filename" := VNone]> ∅))))) st
    else st)) ;;;
  if negb (bool_decide (download_links = [])) then
    modify (on_state (set_download_links download_links))
  else ret ().

(** [analyze_with_browser(state)] *)
Definition analyze_with_browser (m : Machine) : Machine :=
  let u := url (state m) in
  try_except (analyze_with_browser_try u)
    (λ e, on_state (λ st,
       if no_error st
       then set_error ("Error analyzing URL with browser: " +:+ e) st
       else st))
    m.

(** [needs_browser_router(state)] *)
Definition needs_browser_router (st : AgentState) : Node :=
  if default false (needs_browser st) then N_analyze_with_browser
  else N_prepare_final_result.

(** [prepare_final_result(state)] *)
Definition prepare_final_result (st : AgentState) : AgentState :=
  let analysis := default ∅ (analysis st) in
  let download_links := default [] (download_links st) in
  let error := error st in
  let result : gmap string val :=
    <["success" := VBool (bool_decide (error = None))]>
    (<["url" := VStr (url st)]>
    (<["error" := of_opt_str error]>
    (<["is_direct_download" :=
         dict_get_or analysis "is_direct_download" (VBool false)]>
    (<["download_links" := VList download_links]>
    (<["recommended_link" := VNone]>
    (<["title" := dict_get analysis "title"]>
    (<["content_type" := dict_get analysis "content_type"]> ∅))))))) in
  let result :=
    if truthy (dict_get analysis "is_direct_download") then
      <["recommended_link" := VStr (url st)]> result
    else if negb (bool_decide (download_links = [])) then
      <["recommended_link" := VStr (List.hd "" download_links)]> result
    else result in
  set_final_result result st.

(** The graph of [create_url_analyzer_agent]: what a node does, and the
    edge that leaves it. *)
Definition run_node (n : Node) (m : Machine) : Machine :=
  match n with
  | N_analyze_url => analyze_url m
  | N_analyze_with_browser => analyze_with_browser m
  | N_prepare_final_result => on_state prepare_final_result m
  | START | END => m
  end.

Definition next_node (n : Node) (m : Machine) : Node :=
  match n with
  | START => N_analyze_url
  | N_analyze_url => needs_browser_router (state m)
  | N_analyze_with_browser => N_prepare_final_result
  | N_prepare_final_result => END
  | END => END
  end.

Fixpoint run (fuel : nat) (n : Node) (m : Machine) : Node * Machine :=
  match fuel with
  | O => (n, m)
  | S fuel' =>
      match n with
      | END => (END, m)
      | _ => let m' := run_node n m in run fuel' (next_node n m') m'
      end
  end.

(** [url_analyzer_agent.ainvoke({"url": url})]; no path through the graph
    has more than four nodes before [END]. *)
Definition ainvoke (u : string) : Node * Machine :=
  run 4 START (mkMachine (initial_state u) []).

(** [result.get("final_result", {})], the value [main.py] hands back. *)
Definition resolve (u : string) : gmap string val :=
  default ∅ (final_result (state (snd (ainvoke u)))).

End Pipeline.
End Agents.

(** ** The same pipeline in [streamlit_app.py]

    [extract_download_links] and the two loops are repeated there word for
    word, so the definitions above stand for both copies; the functions
    below differ: they return dictionaries instead of updating a state, and
    the button handler does the merging. *)

Module Streamlit.
Section Pipeline.

Variable lower : string → string.
Variable env : Env.

Local Open Scope py_scope.

(** The dictionary [analyze_with_browser(url)] returns. *)
Record BrowserResult := mkBrowserResult {
  br_title : option string;
  br_download_links : list string;
  br_error : option string
}.

Definition analyze_with_browser_try (u : string) : M (list event) BrowserResult :=
  modify (λ l : list event, (l ++ [BrowserLaunch u])%list) ;;;
  page <- lift (render env u) ;;
  let title := page_title page in
  let download_links := Agents.browser_loop lower (elements page) in
  ret (mkBrowserResult (Some title) download_links None).

Definition analyze_with_browser (u : string) (l : list event)
  : BrowserResult * list event :=
  match analyze_with_browser_try u l with
  | (inr r, l') => (r, l')
  | (inl e, l') =>
      (mkBrowserResult None [] (Some ("Error analyzing URL with browser: " +:+ e)), l')
  end.

Definition analyze_url_try (u : string) : M (list event) (gmap string val) :=
  parsed_url <- lift (urlparse env u) ;;
  if String.eqb (scheme parsed_url) "" || String.eqb (netloc parsed_url) "" then
    ret (<["success" := VBool false]>
         (<["error" := VStr "Invalid URL format"]>
         (<["is_direct_download" := VBool false]>
         (<["download_links" := VList []]>
         (<["recommended_link" := VNone]>
         (<["title" := VNone]>
         (<["content_type" := VNone]> ∅)))))))
  else
    modify (λ l : list event, (l ++ [HttpGet u])%list) ;;;
    response <- lift (requests_get env u) ;;
    match http_error response with
    | Some e => raise e
    | None => ret ()
    end ;;;
    let content_type := default "" (content_type_header response) in
    let is_html := Py.contains "text/html" content_type in
    title <- (if is_html then
                soup <- lift (BeautifulSoup env (resp_text response)) ;;
                ret (title_tag soup)
              else ret None) ;;
    let content_disposition := default "" (content_disposition_header response) in
    let '(is_direct_download, filename) :=
      Agents.direct_download_check lower u content_disposition in
    download_links <- (if is_html
                       then Agents.extract_download_links lower env (resp_text response) u
                       else ret []) ;;
    let needs_browser := is_html && bool_decide (download_links = []) in
    let result : gmap string val :=
      <["success" := VBool true]>
      (<["url" := VStr u]>
      (<["error" := VNone]>
      (<["is_direct_download" := VBool is_direct_download]>
      (<["download_links" := VList download_links]>
      (<["recommended_link" := VNone]>
      (<["title" := of_opt_str title]>
      (<["content_type" := VStr content_type]>
      (<["needs_browser" := VBool needs_browser]>
      (<["filename" := of_opt_str filename]> ∅))))))))) in
    ret (if is_direct_download then
           <["recommended_link" := VStr u]> result
         else if negb (bool_decide (download_links = [])) then
           <["recommended_link" := VStr (List.hd "" download_links)]> result
         else result).

Definition analyze_url (u : string) (l : list event)
  : gmap string val * list event :=
  match analyze_url_try u l with
  | (inr r, l') => (r, l')
  | (inl e, l') =>
      (<["success" := VBool false]>
       (<["url" := VStr u]>
       (<["error" := VStr ("Error analyzing URL: " +:+ e)]>
       (<["is_direct_download" := VBool false]>
       (<["download_links" := VList []]>
       (<["recommended_link" := VNone]>
       (<["title" := VNone]>
       (<["content_type" := VNone]>
       (<["needs_browser" := VBool true]> ∅)))))))), l')
  end.

(** Lines 278-283: what the handler takes over from the rendered pass. *)
Definition merge (result : gmap string val) (browser_result : BrowserResult)
  : gmap string val :=
  let result :=
    if negb (bool_decide (br_download_links browser_result = [])) then
      <["recommended_link" := VStr (List.hd "" (br_download_links browser_result))]>
        (<["download_links" := VList (br_download_links browser_result)]> result)
    else result in
  if truthy (of_opt_str (br_title browser_result))
     && negb (truthy (dict_get result "title")) then
    <["title" := of_opt_str (br_title browser_result)]> result
  else result.

(** Lines 271-283: the handler of the button, for a non-empty input. *)
Definition resolve (u : string) : gmap string val * list event :=
  let '(result, l) := analyze_url u [] in
  if truthy (dict_get result "needs_browser")
     && negb (truthy (dict_get result "recommended_link")) then
    let '(browser_result, l) := analyze_with_browser u l in
    (merge result browser_result, l)
  else (result, l).

(** Lines 265-271: an empty input is refused before anything runs. *)
Definition button_handler (u : string) : option (gmap string val * list event) :=
  if String.eqb u "" then None          (* st.error("Please enter a URL") *)
  else Some (resolve u).

End Pipeline.
End Streamlit.

(** ** Outcomes of the static pass *)

(** The static pass ends in one of three ways: normally, with an analysis
    and no error; on the validation, with the fixed message, no flag and
    no outside call; or in the handler, with the flag, the prefixed message
    of the exception and nothing else recorded. *)
Inductive static_outcome (u : string) (m1 : Machine) : Prop :=
  | static_done (a : gmap string val) :
      url (state m1) = u →
      error (state m1) = None →
      analysis (state m1) = Some a →
      a ≠ ∅ →
      static_outcome u m1
  | static_invalid :
      state m1 = set_error "Invalid URL format" (initial_state u) →
      log m1 = [] →
      static_outcome u m1
  | static_raised (e : exn) :
      state m1 = set_needs_browser true
                   (set_error ("Error analyzing URL: " +:+ e) (initial_state u)) →
      static_outcome u m1.

(** ** A stored link and its href *)

(** How a stored link relates to the href it comes from. *)
Definition stored_for (parsed_base : ParseResult) (a_href link : string) : Prop :=
  (Py.startswith a_href "http" = true ∧ link = a_href)
  ∨ (Py.startswith a_href "http" = false
     ∧ Py.startswith link (scheme parsed_base +:+ "://") = true).

(** ** Concrete runs used below *)

Module Scenario.

(** An environment that answers every call the same way: enough for a run
    about one URL and one document. *)
Definition fixed_env (parsed : exn + ParseResult) (response : exn + Response)
    (soup : exn + Soup) (page : exn + Page) : Env :=
  mkEnv (λ _, parsed) (λ _, response) (λ _, soup) (λ _, page).

(** [urlparse("https://example.com/dir/page")] *)
Definition base_page : ParseResult := mkParse "https" "example.com" "/dir/page".

(** The header [attachment; filename=Qreport.zipQ], Q the double quote. *)
Definition attachment_header : string :=
  "attachment; filename=" +:+ String dquote ("report.zip" +:+ String dquote "").

(** A direct download: [https://cdn.example.com/file.zip] answers with a
    zip archive and no special header. *)
Definition zip_url : string := "https://cdn.example.com/file.zip".

Definition zip_env : Env :=
  fixed_env (inr (mkParse "https" "cdn.example.com" "/file.zip"))
            (inr (mkResponse (Some "application/zip") None "PK" 200 2 None))
            (inl "not called")
            (inl "not called").

(** A page with one link: [https://example.com/page] answers with HTML
    holding one anchor, href [files/doc.pdf] and text [download]. *)
Definition page_url : string := "https://example.com/page".

Definition page_env : Env :=
  fixed_env (inr (mkParse "https" "example.com" "/page"))
            (inr (mkResponse (Some "text/html; charset=utf-8") None
                    "<html>...</html>" 200 16 None))
            (inr (mkSoup (Some "Files") [mkATag "files/doc.pdf" "download" None]))
            (inl "not called").

(** An input without scheme: [urlparse("example.com/file")] has an empty
    scheme and an empty netloc. *)
Definition bare_url : string := "example.com/file".

Definition bare_env : Env :=
  fixed_env (inr (mkParse "" "" "example.com/file"))
            (inl "not called") (inl "not called") (inl "not called").

(** An HTML answer sent as an attachment: [https://example.com/export]
    answers with [Content-Type: text/html] and
    [Content-Disposition: attachment; filename=report.html], and the
    document has no anchor. *)
Definition export_url : string := "https://example.com/export".

Definition export_response : Response :=
  mkResponse (Some "text/html") (Some "attachment; filename=report.html")
             "<html><body>report</body></html>" 200 32 None.

Definition export_env : Env :=
  fixed_env (inr (mkParse "https" "example.com" "/export"))
            (inr export_response)
            (inr (mkSoup None []))
            (inr (mkPage "Report" [])).

(** A page without links whose rendering times out. *)
Definition nolinks_env : Env :=
  fixed_env (inr (mkParse "https" "example.com" "/page"))
            (inr (mkResponse (Some "text/html") None "<html></html>" 200 13 None))
            (inr (mkSoup None []))
            (inl "Navigation Timeout Exceeded: 30000 ms exceeded.").

(** The GET times out and the browser fails too. *)
Definition both_fail_env : Env :=
  fixed_env (inr (mkParse "https" "example.com" "/page"))
            (inl "Connection to example.com timed out.")
            (inl "not called")
            (inl "Browser closed unexpectedly").

(** The GET is refused and the browser finds two links. *)
Definition recovered_env : Env :=
  fixed_env (inr (mkParse "https" "example.com" "/page"))
            (inl "403 Client Error: Forbidden for url: https://example.com/page")
            (inl "not called")
            (inr (mkPage "Downloads"
                    [("https://example.com/about", "About us");
                     ("https://example.com/files/setup.exe", "Installer");
                     ("https://example.com/get?id=7", "Download now")])).

End Scenario.

(** More runs, for the further properties. *)

Module Runs.

(** [urlparse("http://[::1")] raises [ValueError: Invalid IPv6 URL]. *)
Definition unparsable_url : string := "http://[::1".

Definition unparsable_env : Env :=
  Scenario.fixed_env (inl "Invalid IPv6 URL")
                     (inl "not called") (inl "not called")
                     (inl "net::ERR_NAME_NOT_RESOLVED at http://[::1").

(** A page whose links are written by a script: the static document has
    no anchor and no title, the rendered one has a title and two anchors. *)
Definition scripted_env : Env :=
  Scenario.fixed_env
    (inr (mkParse "https" "example.com" "/page"))
    (inr (mkResponse (Some "text/html") None "<html><script/></html>" 200 22 None))
    (inr (mkSoup None []))
    (inr (mkPage "Downloads"
            [("https://example.com/about", "About us");
             ("https://example.com/files/setup.exe", "Installer")])).

End Runs.

(** * Properties *)

(** ** Strings *)

Lemma split_not_nil sep s : Py.split sep s ≠ [].
Proof.
  destruct s as [|c s]; simpl; [done|].
  destruct (Ascii.eqb c sep); [done|].
  destruct (Py.split sep s); done.
Qed.

(** The string functions mean what the Python methods mean. *)

Lemma startswith_spec (s p : string) :
  Py.startswith s p = true ↔ ∃ post, s = p +:+ post.
Proof.
  unfold Py.startswith. revert s.
  induction p as [|a p IH]; intros s.
  - split; [intros _; by exists s | intros _; by destruct s].
  - destruct s as [|b s]; simpl.
    + split; [done | intros [post Hpost]; discriminate Hpost].
    + destruct (Ascii.ascii_dec a b) as [->|Hne].
      * rewrite IH. split; intros [post Hpost]; exists post.
        -- by rewrite Hpost.
        -- by injection Hpost.
      * split; [done | intros [post Hpost]]. by injection Hpost.
Qed.

Lemma contains_spec (sub s : string) :
  Py.contains sub s = true ↔ ∃ pre post, s = pre +:+ sub +:+ post.
Proof.
  induction s as [|c s IH]; cbn [Py.contains]; rewrite orb_true_iff.
  - split.
    + intros [Hp | Hf]; [|done].
      apply (startswith_spec "" sub) in Hp as [post Hpost]. by exists "", post.
    + intros (pre & post & Heq). left.
      apply (startswith_spec "" sub). exists post.
      destruct pre; [exact Heq | discriminate Heq].
  - split.
    + intros [Hp | Hrest].
      * apply (startswith_spec (String c s) sub) in Hp as [post Hpost].
        by exists "", post.
      * apply IH in Hrest as (pre & post & ->). by exists (String c pre), post.
    + intros (pre & post & Heq). destruct pre as [|c' pre].
      * left. apply (startswith_spec (String c s) sub). by exists post.
      * right. apply IH. injection Heq as _ ->. by exists pre, post.
Qed.

Lemma substring_skip (pre p : string) (m : nat) :
  String.substring (String.length pre) m (pre +:+ p) = String.substring 0 m p.
Proof. induction pre as [|c pre IH]; [reflexivity | exact IH]. Qed.

Lemma substring_all (p : string) : String.substring 0 (String.length p) p = p.
Proof. induction p as [|c p IH]; [reflexivity|]. simpl. by rewrite IH. Qed.

Lemma length_append (a b : string) :
  String.length (a +:+ b) = (String.length a + String.length b)%nat.
Proof. induction a as [|c a IH]; [reflexivity|]. simpl. by rewrite <- IH. Qed.

Lemma substring_cut (s : string) (k : nat) :
  (k ≤ String.length s)%nat →
  s = String.substring 0 k s +:+ String.substring k (String.length s - k) s.
Proof.
  revert k. induction s as [|c s IH]; intros k Hk.
  - destruct k; [reflexivity | simpl in Hk; lia].
  - destruct k as [|k].
    + change (String c s = String c (String.substring 0 (String.length s) s)).
      by rewrite substring_all.
    + simpl in Hk.
      change (String c s
              = String c (String.substring 0 k s
                          +:+ String.substring k (String.length s - k) s)).
      f_equal. apply IH. lia.
Qed.

Lemma endswith_spec (s p : string) :
  Py.endswith s p = true ↔ ∃ pre, s = pre +:+ p.
Proof.
  unfold Py.endswith. rewrite andb_true_iff, Nat.leb_le, String.eqb_eq. split.
  - intros [Hle Hsub].
    exists (String.substring 0 (String.length s - String.length p) s).
    pose proof (substring_cut s (String.length s - String.length p)) as Hcut.
    replace (String.length s - (String.length s - String.length p))%nat
      with (String.length p) in Hcut by lia.
    rewrite Hsub in Hcut. apply Hcut. lia.
  - intros [pre ->]. rewrite length_append. split; [lia|].
    replace (String.length pre + String.length p - String.length p)%nat
      with (String.length pre) by lia.
    rewrite substring_skip. apply substring_all.
Qed.

Example split_path : Py.split "/" "/dir/page" = [""; "dir"; "page"].
Proof. reflexivity. Qed.

Example directory_of_path :
  Py.join "/" (Py.all_but_last (Py.split "/" "/dir/page")) +:+ "/" = "/dir/"
  ∧ Py.join "/" (Py.all_but_last (Py.split "/" "")) +:+ "/" = "/".
Proof. split; reflexivity. Qed.

Example lower_then_suffix :
  Py.endswith (Py.ascii_lower "https://Example.com/Setup.EXE") ".exe" = true
  ∧ Py.endswith "https://Example.com/Setup.EXE" ".exe" = false.
Proof. split; reflexivity. Qed.

Example filename_of_header :
  re_search_filename Scenario.attachment_header = Some "report.zip"
  ∧ re_search_filename "attachment; filename=report.html" = Some "report.html"
  ∧ re_search_filename "attachment" = None.
Proof. repeat split. Qed.

Lemma append_assoc (a b c : string) : (a +:+ b) +:+ c = a +:+ b +:+ c.
Proof.
  induction a as [|x a IH]; [reflexivity|].
  exact (f_equal (String x) IH).
Qed.

Lemma any_or {A} (f g : A → bool) (l : list A) :
  Py.any (λ x, f x || g x) l = Py.any f l || Py.any g l.
Proof.
  unfold Py.any. induction l as [|x l IH]; simpl; [done|].
  rewrite IH. destruct (f x), (g x), (existsb f l), (existsb g l); done.
Qed.

(** ** Link normalisation *)

Lemma absolute_link_http (parsed_base : ParseResult) (link : string) :
  scheme parsed_base = "http" ∨ scheme parsed_base = "https" →
  Py.startswith (absolute_link parsed_base link) "http" = true.
Proof.
  intros Hs. unfold absolute_link, base_domain.
  destruct (Py.startswith link "http") eqn:Hhttp; [exact Hhttp|].
  destruct (Py.startswith link "//"), (Py.startswith link "/");
    destruct Hs as [-> | ->]; reflexivity.
Qed.

(** C9. Normalising twice against a base whose scheme is http or https
    gives the same link as normalising once. *)
Theorem absolute_link_idempotent (parsed_base : ParseResult) (x : string) :
  scheme parsed_base = "http" ∨ scheme parsed_base = "https" →
  absolute_link parsed_base (absolute_link parsed_base x)
  = absolute_link parsed_base x.
Proof.
  intros Hs.
  pose proof (absolute_link_http parsed_base x Hs) as Hhttp.
  unfold absolute_link at 1. rewrite Hhttp. reflexivity.
Qed.

Lemma absolute_link_idempotent_witness :
  scheme Scenario.base_page = "https"
  ∧ absolute_link Scenario.base_page "files/doc.pdf"
    = "https://example.com/dir/files/doc.pdf"
  ∧ absolute_link Scenario.base_page
      (absolute_link Scenario.base_page "files/doc.pdf")
    = absolute_link Scenario.base_page "files/doc.pdf".
Proof.
  split; [reflexivity|]. split; [reflexivity|].
  apply (absolute_link_idempotent Scenario.base_page "files/doc.pdf").
  right. reflexivity.
Defined.

(** The four rules as the code applies them: the first test is on the
    four characters [http]. *)
Lemma absolute_link_rules (parsed_base : ParseResult) (link : string) :
  absolute_link parsed_base link =
    if Py.startswith link "http" then link
    else if Py.startswith link "//" then scheme parsed_base +:+ ":" +:+ link
    else if Py.startswith link "/" then
      scheme parsed_base +:+ "://" +:+ netloc parsed_base +:+ link
    else
      scheme parsed_base +:+ "://" +:+ netloc parsed_base
      +:+ (Py.join "/" (removelast (Py.split "/" (path parsed_base))) +:+ "/")
      +:+ link.
Proof.
  unfold absolute_link, base_domain, Py.all_but_last.
  repeat case_match; rewrite ?append_assoc; reflexivity.
Qed.

(** Rule 1 as the specification words it: an href that starts with
    [http://] or [https://] is returned unchanged. *)
Lemma absolute_link_scheme_token (parsed_base : ParseResult) (link : string) :
  Py.startswith link "http://" = true ∨ Py.startswith link "https://" = true →
  absolute_link parsed_base link = link.
Proof.
  intros Htoken. unfold absolute_link.
  replace (Py.startswith link "http") with true; [reflexivity|].
  symmetry. apply startswith_spec.
  destruct Htoken as [H | H]; apply startswith_spec in H as [post ->].
  - by exists ("://" +:+ post).
  - by exists ("s://" +:+ post).
Qed.

(** C4. The claim sends every href that does not start with an HTTP(S)
    scheme token to the relative rule; the code tests the four characters
    [http] only, so the relative href [httpfile.zip], which starts with
    neither [http://] nor [https://], is returned as it is and not resolved
    against the base [https://example.com/dir/page]. *)
Theorem absolute_link_httpfile :
  Py.startswith "httpfile.zip" "http://" = false
  ∧ Py.startswith "httpfile.zip" "https://" = false
  ∧ absolute_link Scenario.base_page "httpfile.zip" = "httpfile.zip"
  ∧ absolute_link Scenario.base_page "httpfile.zip"
    ≠ "https://example.com/dir/httpfile.zip"
  ∧ absolute_link Scenario.base_page "file.zip"
    = "https://example.com/dir/file.zip".
Proof. repeat split; try reflexivity. discriminate. Qed.

(** ** The two acceptance tests *)

(** C3, as the code has it. The rendered pass tests the keywords against
    the lower-cased text only, and the extensions against the lower-cased
    href; the static pass, for an anchor without [download] attribute,
    accepts what the rendered pass accepts and also every anchor whose
    lower-cased href contains a keyword. *)
Theorem browser_accepts_static_accepts (lower : string → string)
    (a_href a_text : string) :
  Agents.browser_accepts lower a_href a_text
  = Py.any (λ keyword, Py.contains keyword (lower a_text)) download_keywords
    || Py.any (λ ext, Py.endswith (lower a_href) ext) file_extensions
  ∧ Agents.static_accepts lower (mkATag a_href a_text None)
    = Agents.browser_accepts lower a_href a_text
      || Py.any (λ keyword, Py.contains keyword (lower a_href)) download_keywords.
Proof.
  split; [reflexivity|].
  unfold Agents.static_accepts, Agents.browser_accepts.
  cbv beta iota zeta delta [href text download].
  rewrite bool_decide_eq_false_2 by (intros H; by apply H).
  rewrite any_or.
  destruct (Py.any _ download_keywords), (Py.any _ download_keywords),
    (Py.any _ file_extensions); reflexivity.
Qed.

(** C3 fails as stated: a link whose href contains a keyword and whose
    text does not is accepted by the static test and refused by the
    rendered one. *)
Lemma browser_accepts_counterexample :
  let href := "https://example.com/download/setup" in
  let text := "Get it" in
  Py.any (λ keyword, Py.contains keyword (Py.ascii_lower href)) download_keywords
  = true
  ∧ Agents.static_accepts Py.ascii_lower (mkATag href text None) = true
  ∧ Agents.browser_accepts Py.ascii_lower href text = false
  ∧ Agents.browser_accepts Py.ascii_lower href text
    ≠ Agents.static_accepts Py.ascii_lower (mkATag href text None).
Proof. vm_compute. repeat split. discriminate. Qed.

(** ** The direct-download check *)

Lemma extension_loop_any (lower : string → string) (u : string)
    (exts : list string) (acc : bool * option string) :
  Agents.extension_loop lower u exts acc =
    if Py.any (λ ext, Py.endswith (lower u) ext) exts
    then (true, Some (Py.last_item (Py.split "/" u)))
    else acc.
Proof.
  induction exts as [|ext rest IH]; simpl; [reflexivity|].
  destruct (Py.endswith (lower u) ext); [reflexivity | exact IH].
Qed.

(** C8, as the code has it. The extension test runs after the header test
    and overwrites its filename: when the lower-cased URL ends with a
    configured extension the filename is the last segment of the URL
    whatever the header holds; the filename of the header is returned only
    when no extension matches. *)
Theorem direct_download_check_last_wins (lower : string → string)
    (u content_disposition : string) :
  Agents.direct_download_check lower u content_disposition =
    if Py.any (λ ext, Py.endswith (lower u) ext) file_extensions
    then (true, Some (Py.last_item (Py.split "/" u)))
    else if Py.contains "attachment" content_disposition
    then (true, re_search_filename content_disposition)
    else (false, None).
Proof.
  unfold Agents.direct_download_check.
  destruct (Py.contains "attachment" content_disposition);
    rewrite extension_loop_any; [|reflexivity].
  destruct (re_search_filename content_disposition); reflexivity.
Qed.

(** C8 fails as stated: the header yields [report.zip], the URL ends with
    [.zip], and the filename returned is the last segment of the URL. *)
Lemma direct_download_check_counterexample :
  Py.contains "attachment" Scenario.attachment_header = true
  ∧ re_search_filename Scenario.attachment_header = Some "report.zip"
  ∧ Agents.direct_download_check Py.ascii_lower "https://example.com/a.zip"
      Scenario.attachment_header
    = (true, Some "a.zip")
  ∧ snd (Agents.direct_download_check Py.ascii_lower "https://example.com/a.zip"
           Scenario.attachment_header)
    ≠ re_search_filename Scenario.attachment_header.
Proof. vm_compute. repeat split. discriminate. Qed.

(** ** The graph *)

Lemma ainvoke_END (lower : string → string) (env : Env) (u : string) :
  Agents.ainvoke lower env u =
    let m1 := Agents.analyze_url lower env (mkMachine (initial_state u) []) in
    (END,
     on_state (Agents.prepare_final_result)
       (match Agents.needs_browser_router (state m1) with
        | N_analyze_with_browser => Agents.analyze_with_browser lower env m1
        | _ => m1
        end)).
Proof.
  unfold Agents.ainvoke. cbn [Agents.run Agents.run_node Agents.next_node].
  unfold Agents.needs_browser_router.
  destruct (default false (needs_browser (state _))); reflexivity.
Qed.

(** ** The static pass *)

Ltac unfold_static :=
  unfold Agents.analyze_url, try_except, Agents.analyze_url_try,
    Agents.extract_download_links, bind, lift, modify, raise, ret;
  cbn [state url log initial_state].

Ltac unfold_browser :=
  unfold Agents.analyze_with_browser, try_except, Agents.analyze_with_browser_try,
    bind, lift, modify, raise, ret, on_state, emit;
  cbn [state log].

Lemma analyze_url_outcome (lower : string → string) (env : Env) (u : string) :
  static_outcome u (Agents.analyze_url lower env (mkMachine (initial_state u) [])).
Proof.
  unfold_static.
  destruct (urlparse env u) as [e|p] eqn:Hp;
    [by eapply static_raised|].
  destruct (_ || _); [by apply static_invalid|].
  destruct (requests_get env u) as [e|r]; [by eapply static_raised|].
  destruct (http_error r); [by eapply static_raised|].
  destruct (Agents.direct_download_check _ _ _) as [is_direct_download filename].
  destruct (Py.contains "text/html" _).
  - destruct (BeautifulSoup env (resp_text r)) as [e|soup];
      [by eapply static_raised|].
    destruct (bool_decide _);
      (eapply static_done; [reflexivity.. | apply insert_non_empty]).
  - eapply static_done; [reflexivity.. | apply insert_non_empty].
Qed.

Lemma analyze_url_url (lower : string → string) (env : Env) (u : string) :
  url (state (Agents.analyze_url lower env (mkMachine (initial_state u) []))) = u.
Proof.
  destruct (analyze_url_outcome lower env u) as [a Hu _ _ _ | Hst _ | e Hst];
    [exact Hu | by rewrite Hst..].
Qed.

Lemma analyze_with_browser_url (lower : string → string) (env : Env) (m : Machine) :
  url (state (Agents.analyze_with_browser lower env m)) = url (state m).
Proof.
  destruct m as [st l]. unfold_browser.
  destruct (render env (url st)) as [e|page]; cbn [state log].
  - destruct (Agents.no_error st); reflexivity.
  - destruct (Agents.no_analysis st), (bool_decide _); reflexivity.
Qed.

(** ** Finalisation *)

Lemma truthy_get_or_false (a : gmap string val) (k : string) :
  truthy (dict_get_or a k (VBool false)) = truthy (dict_get a k).
Proof. unfold dict_get_or, dict_get. destruct (a !! k); reflexivity. Qed.

Lemma prepare_final_result_fields (st : AgentState) :
  ∃ r, final_result (Agents.prepare_final_result st) = Some r
  ∧ dict_get r "success" = VBool (bool_decide (error st = None))
  ∧ dict_get r "error" = of_opt_str (error st)
  ∧ dict_get r "is_direct_download"
    = dict_get_or (default ∅ (analysis st)) "is_direct_download" (VBool false)
  ∧ dict_get r "download_links" = VList (default [] (download_links st))
  ∧ dict_get r "recommended_link"
    = if truthy (dict_get (default ∅ (analysis st)) "is_direct_download")
      then VStr (url st)
      else match default [] (download_links st) with
           | [] => VNone
           | first :: _ => VStr first
           end.
Proof.
  unfold Agents.prepare_final_result.
  destruct (truthy (dict_get (default ∅ (analysis st)) "is_direct_download"));
    [|destruct (default [] (download_links st)) as [|first rest]];
    eexists; (split; [reflexivity|]); repeat split.
Qed.

Lemma resolve_final (lower : string → string) (env : Env) (u : string) :
  ∃ st, url st = u
  ∧ Agents.resolve lower env u
    = default ∅ (final_result (Agents.prepare_final_result st)).
Proof.
  unfold Agents.resolve. rewrite ainvoke_END. cbn [snd state on_state].
  eexists. split; [|reflexivity].
  destruct (Agents.needs_browser_router _);
    rewrite ?analyze_with_browser_url; apply analyze_url_url.
Qed.

(** C5. In every result the graph hands back, a true [is_direct_download]
    comes with a [recommended_link] equal to the URL of the request. *)
Theorem direct_download_recommends_url (lower : string → string) (env : Env)
    (u : string) :
  dict_get (Agents.resolve lower env u) "is_direct_download" = VBool true →
  dict_get (Agents.resolve lower env u) "recommended_link" = VStr u.
Proof.
  destruct (resolve_final lower env u) as (st & Hu & ->).
  destruct (prepare_final_result_fields st) as (r & -> & _ & _ & Hdd & _ & Hrec).
  simpl. intros Htrue.
  rewrite Hrec, <- truthy_get_or_false, <- Hdd, Htrue, Hu. reflexivity.
Qed.

(** C6. In every result the graph hands back with a false
    [is_direct_download], [recommended_link] is the first element of
    [download_links] when there is one, and [None] when the list is
    empty. *)
Theorem first_link_recommended (lower : string → string) (env : Env)
    (u : string) :
  dict_get (Agents.resolve lower env u) "is_direct_download" = VBool false →
  ∃ links,
    dict_get (Agents.resolve lower env u) "download_links" = VList links
    ∧ dict_get (Agents.resolve lower env u) "recommended_link"
      = match links with
        | [] => VNone
        | first :: _ => VStr first
        end.
Proof.
  destruct (resolve_final lower env u) as (st & Hu & ->).
  destruct (prepare_final_result_fields st)
    as (r & -> & _ & _ & Hdd & Hlinks & Hrec).
  simpl. intros Hfalse.
  eexists. split; [exact Hlinks|].
  rewrite Hrec, <- truthy_get_or_false, <- Hdd, Hfalse. reflexivity.
Qed.

Lemma direct_download_recommends_url_witness :
  dict_get (Agents.resolve Py.ascii_lower Scenario.zip_env Scenario.zip_url)
    "is_direct_download" = VBool true
  ∧ dict_get (Agents.resolve Py.ascii_lower Scenario.zip_env Scenario.zip_url)
      "recommended_link" = VStr "https://cdn.example.com/file.zip".
Proof.
  split; [vm_compute; reflexivity|].
  apply (direct_download_recommends_url Py.ascii_lower Scenario.zip_env
           Scenario.zip_url).
  vm_compute; reflexivity.
Defined.

Lemma first_link_recommended_witness :
  dict_get (Agents.resolve Py.ascii_lower Scenario.page_env Scenario.page_url)
    "is_direct_download" = VBool false
  ∧ ∃ links,
      dict_get (Agents.resolve Py.ascii_lower Scenario.page_env Scenario.page_url)
        "download_links" = VList links
      ∧ dict_get (Agents.resolve Py.ascii_lower Scenario.page_env Scenario.page_url)
          "recommended_link"
        = match links with
          | [] => VNone
          | first :: _ => VStr first
          end.
Proof.
  split; [vm_compute; reflexivity|].
  apply (first_link_recommended Py.ascii_lower Scenario.page_env Scenario.page_url).
  vm_compute; reflexivity.
Defined.

Example page_scenario :
  dict_get (Agents.resolve Py.ascii_lower Scenario.page_env Scenario.page_url)
    "download_links" = VList ["https://example.com/files/doc.pdf"]
  ∧ dict_get (Agents.resolve Py.ascii_lower Scenario.page_env Scenario.page_url)
      "recommended_link" = VStr "https://example.com/files/doc.pdf".
Proof. vm_compute. split; reflexivity. Qed.

(** C7. When the parse of the input has an empty scheme or an empty
    netloc, the run reaches the end of the graph with an empty log (no GET,
    no browser), the router goes straight to the final node, and the
    result has [success] false and the error [Invalid URL format]. *)
Theorem invalid_url_rejected (lower : string → string) (env : Env)
    (u : string) (parsed_url : ParseResult) :
  urlparse env u = inr parsed_url →
  scheme parsed_url = "" ∨ netloc parsed_url = "" →
  fst (Agents.ainvoke lower env u) = END
  ∧ log (snd (Agents.ainvoke lower env u)) = []
  ∧ Agents.needs_browser_router
      (state (Agents.analyze_url lower env (mkMachine (initial_state u) [])))
    = N_prepare_final_result
  ∧ dict_get (Agents.resolve lower env u) "success" = VBool false
  ∧ dict_get (Agents.resolve lower env u) "error" = VStr "Invalid URL format".
Proof.
  intros Hp Hbad.
  assert (Agents.analyze_url lower env (mkMachine (initial_state u) [])
          = mkMachine (set_error "Invalid URL format" (initial_state u)) [])
    as Hm1.
  { unfold_static. rewrite Hp.
    destruct Hbad as [-> | ->]; [reflexivity|].
    rewrite orb_true_r. reflexivity. }
  unfold Agents.resolve. rewrite ainvoke_END, Hm1.
  repeat split.
Qed.

Lemma invalid_url_rejected_witness :
  urlparse Scenario.bare_env Scenario.bare_url = inr (mkParse "" "" "example.com/file")
  ∧ fst (Agents.ainvoke Py.ascii_lower Scenario.bare_env Scenario.bare_url) = END
  ∧ log (snd (Agents.ainvoke Py.ascii_lower Scenario.bare_env Scenario.bare_url)) = []
  ∧ Agents.needs_browser_router
      (state (Agents.analyze_url Py.ascii_lower Scenario.bare_env
                (mkMachine (initial_state Scenario.bare_url) [])))
    = N_prepare_final_result
  ∧ dict_get (Agents.resolve Py.ascii_lower Scenario.bare_env Scenario.bare_url)
      "success" = VBool false
  ∧ dict_get (Agents.resolve Py.ascii_lower Scenario.bare_env Scenario.bare_url)
      "error" = VStr "Invalid URL format".
Proof.
  split; [reflexivity|].
  apply (invalid_url_rejected Py.ascii_lower Scenario.bare_env Scenario.bare_url
           (mkParse "" "" "example.com/file")).
  - reflexivity.
  - left. reflexivity.
Defined.

(** ** The escalation flag *)

(** C2, as the code has it. When the URL is valid, the GET answers without
    HTTP error and the parse of an HTML body raises nothing, the static
    pass sets [needs_browser] exactly when the response is HTML and the
    list of extracted links is empty; a response that is not HTML leaves
    the flag and the list unset. The direct-download classification takes
    no part in it. *)
Theorem needs_browser_iff_html_without_links (lower : string → string)
    (env : Env) (u : string) (parsed_url : ParseResult) (response : Response) :
  urlparse env u = inr parsed_url →
  scheme parsed_url ≠ "" →
  netloc parsed_url ≠ "" →
  requests_get env u = inr response →
  http_error response = None →
  (∀ e, BeautifulSoup env (resp_text response) ≠ inl e) →
  let is_html :=
    Py.contains "text/html" (default "" (content_type_header response)) in
  let st := state (Agents.analyze_url lower env (mkMachine (initial_state u) [])) in
  error st = None
  ∧ (needs_browser st = Some true ↔ is_html = true ∧ download_links st = Some [])
  ∧ (is_html = false → needs_browser st = None ∧ download_links st = None)
  ∧ (∃ a, analysis st = Some a
          ∧ dict_get a "is_direct_download"
            = VBool (fst (Agents.direct_download_check lower u
                            (default "" (content_disposition_header response))))).
Proof.
  intros Hp Hs Hn Hget Herr Hsoup is_html st. subst st is_html.
  unfold_static. rewrite Hp.
  apply String.eqb_neq in Hs, Hn. rewrite Hs, Hn. cbn [orb].
  rewrite Hget, Herr.
  destruct (Agents.direct_download_check _ _ _) as [is_direct_download filename].
  destruct (Py.contains "text/html" _).
  - destruct (BeautifulSoup env (resp_text response)) as [e|soup] eqn:Hparse;
      [by destruct (Hsoup e)|].
    destruct (bool_decide _) eqn:Hnil.
    + apply bool_decide_eq_true_1 in Hnil. cbn.
      rewrite Hnil. repeat split; try done. by eexists.
    + apply bool_decide_eq_false_1 in Hnil. cbn.
      repeat split; try done; [|by eexists].
      intros [_ Hempty]. by injection Hempty.
  - cbn. repeat split; try done; [|by eexists].
    by intros [? _].
Qed.

Lemma needs_browser_iff_html_without_links_witness :
  let st := state (Agents.analyze_url Py.ascii_lower Scenario.export_env
                     (mkMachine (initial_state Scenario.export_url) [])) in
  error st = None
  ∧ (needs_browser st = Some true
     ↔ Py.contains "text/html"
         (default "" (content_type_header Scenario.export_response)) = true
       ∧ download_links st = Some [])
  ∧ (Py.contains "text/html"
       (default "" (content_type_header Scenario.export_response)) = false
     → needs_browser st = None ∧ download_links st = None)
  ∧ (∃ a, analysis st = Some a
          ∧ dict_get a "is_direct_download"
            = VBool (fst (Agents.direct_download_check Py.ascii_lower
                            Scenario.export_url
                            (default "" (content_disposition_header
                                           Scenario.export_response))))).
Proof.
  apply (needs_browser_iff_html_without_links Py.ascii_lower Scenario.export_env
           Scenario.export_url (mkParse "https" "example.com" "/export")
           Scenario.export_response).
  - reflexivity.
  - discriminate.
  - discriminate.
  - reflexivity.
  - reflexivity.
  - intros e. discriminate.
Defined.

(** C2 fails as stated: an HTML answer sent as an attachment is classified
    as a direct download, has no link, and still sets the flag; the router
    then escalates. *)
Lemma needs_browser_counterexample :
  let st := state (Agents.analyze_url Py.ascii_lower Scenario.export_env
                     (mkMachine (initial_state Scenario.export_url) [])) in
  error st = None
  ∧ dict_get (default ∅ (analysis st)) "is_direct_download" = VBool true
  ∧ needs_browser st = Some true
  ∧ Agents.needs_browser_router st = N_analyze_with_browser.
Proof. vm_compute. repeat split. Qed.

(** ** The rendered pass and the merge *)

Lemma resolve_escalated (lower : string → string) (env : Env) (u : string) :
  let m1 := Agents.analyze_url lower env (mkMachine (initial_state u) []) in
  needs_browser (state m1) = Some true →
  Agents.resolve lower env u
  = default ∅ (final_result (Agents.prepare_final_result
                 (state (Agents.analyze_with_browser lower env m1)))).
Proof.
  intros m1 Hflag. unfold Agents.resolve. rewrite ainvoke_END.
  fold m1. unfold Agents.needs_browser_router. rewrite Hflag. reflexivity.
Qed.

Lemma analyze_with_browser_raised (lower : string → string) (env : Env)
    (m : Machine) (e : exn) :
  render env (url (state m)) = inl e →
  state (Agents.analyze_with_browser lower env m)
  = if Agents.no_error (state m)
    then set_error ("Error analyzing URL with browser: " +:+ e) (state m)
    else state m.
Proof.
  intros Hr. destruct m as [st l]. unfold_browser.
  cbn [state url] in Hr. rewrite Hr. reflexivity.
Qed.

Lemma analyze_with_browser_returned (lower : string → string) (env : Env)
    (m : Machine) (page : Page) :
  render env (url (state m)) = inr page →
  let download_links := Agents.browser_loop lower (elements page) in
  let st1 :=
    if Agents.no_analysis (state m) then
      set_analysis
        (<["url" := VStr (url (state m))]>
         (<["title" := VStr (page_title page)]>
         (<["is_html" := VBool true]>
         (<["is_direct_download" := VBool false]>
         (<["filename" := VNone]> ∅))))) (state m)
    else state m in
  state (Agents.analyze_with_browser lower env m)
  = if bool_decide (download_links = []) then st1
    else set_download_links download_links st1.
Proof.
  intros Hr. destruct m as [st l]. unfold_browser.
  cbn [state url] in Hr. rewrite Hr. cbn [state].
  destruct (bool_decide _); reflexivity.
Qed.

(** In the graph (the dashboard differs: it never shows the message of
    a rendering): after an escalation in which the
    rendering raises, the result has [success] false; its error is the
    message of the rendering when the static pass had left no error (an
    HTML page without links), and it stays the error of the static pass,
    which starts with [Error analyzing URL: ], when the static pass had
    failed. *)
Theorem render_error_kept_unless_static_error (lower : string → string)
    (env : Env) (u : string) (e_render : exn) :
  let m1 := Agents.analyze_url lower env (mkMachine (initial_state u) []) in
  needs_browser (state m1) = Some true →
  render env u = inl e_render →
  dict_get (Agents.resolve lower env u) "success" = VBool false
  ∧ (error (state m1) = None →
     dict_get (Agents.resolve lower env u) "error"
     = VStr ("Error analyzing URL with browser: " +:+ e_render))
  ∧ (∀ e_static, error (state m1) = Some e_static →
     (∃ e, e_static = "Error analyzing URL: " +:+ e)
     ∧ dict_get (Agents.resolve lower env u) "error" = VStr e_static).
Proof.
  intros m1 Hflag Hrender.
  rewrite (resolve_escalated lower env u Hflag). fold m1.
  pose proof (analyze_url_url lower env u) as Hu. fold m1 in Hu.
  rewrite <- Hu in Hrender.
  rewrite (analyze_with_browser_raised lower env m1 e_render Hrender).
  pose proof (analyze_url_outcome lower env u) as Hout. fold m1 in Hout.
  destruct Hout as [a _ Herr _ _ | Hst _ | e Hst].
  - unfold Agents.no_error. rewrite Herr. cbn [of_opt_str truthy negb].
    destruct (prepare_final_result_fields
                (set_error ("Error analyzing URL with browser: " +:+ e_render)
                   (state m1))) as (r & -> & Hsucc & Herror & _).
    simpl. split; [exact Hsucc|]. split; [intros _; exact Herror|].
    intros e_static Hsome. discriminate Hsome.
  - rewrite Hst in Hflag. discriminate.
  - rewrite Hst. cbn. split; [reflexivity|]. split; [discriminate|].
    intros e_static [= <-]. split; [by eexists | reflexivity].
Qed.

Lemma render_error_kept_unless_static_error_witness :
  let m1 := Agents.analyze_url Py.ascii_lower Scenario.nolinks_env
              (mkMachine (initial_state Scenario.page_url) []) in
  let result := Agents.resolve Py.ascii_lower Scenario.nolinks_env Scenario.page_url in
  needs_browser (state m1) = Some true
  ∧ error (state m1) = None
  ∧ dict_get result "success" = VBool false
  ∧ (error (state m1) = None →
     dict_get result "error"
     = VStr ("Error analyzing URL with browser: "
             +:+ "Navigation Timeout Exceeded: 30000 ms exceeded."))
  ∧ (∀ e_static, error (state m1) = Some e_static →
     (∃ e, e_static = "Error analyzing URL: " +:+ e)
     ∧ dict_get result "error" = VStr e_static).
Proof.
  split; [reflexivity|]. split; [reflexivity|].
  apply (render_error_kept_unless_static_error Py.ascii_lower Scenario.nolinks_env
           Scenario.page_url "Navigation Timeout Exceeded: 30000 ms exceeded.").
  - reflexivity.
  - reflexivity.
Defined.

(** The two runs of the graph: a page without links whose rendering
    times out ends with [success] false and the message of the rendering;
    when the GET and the rendering both fail, the error is the one of the
    GET and the message of the rendering is dropped. *)
Lemma render_error_counterexample :
  let quiet := Agents.resolve Py.ascii_lower Scenario.nolinks_env Scenario.page_url in
  let both := Agents.resolve Py.ascii_lower Scenario.both_fail_env Scenario.page_url in
  error (state (Agents.analyze_url Py.ascii_lower Scenario.nolinks_env
                  (mkMachine (initial_state Scenario.page_url) []))) = None
  ∧ dict_get quiet "success" = VBool false
  ∧ dict_get quiet "success" ≠ VBool true
  ∧ dict_get quiet "error"
    = VStr "Error analyzing URL with browser: Navigation Timeout Exceeded: 30000 ms exceeded."
  ∧ dict_get both "success" = VBool false
  ∧ dict_get both "error"
    = VStr "Error analyzing URL: Connection to example.com timed out."
  ∧ dict_get both "error"
    ≠ VStr "Error analyzing URL with browser: Browser closed unexpectedly".
Proof. vm_compute. repeat split; discriminate. Qed.

(** C10. When the static pass has left an error and asked for the
    browser, and the rendering returns at least one accepted link, the
    result keeps [success] false and the error of the static pass, and
    carries the links of the rendered pass with the first of them as
    [recommended_link]. *)
Theorem static_error_kept_with_browser_links (lower : string → string)
    (env : Env) (u : string) (e_static : string) (page : Page) :
  let m1 := Agents.analyze_url lower env (mkMachine (initial_state u) []) in
  let links := Agents.browser_loop lower (elements page) in
  error (state m1) = Some e_static →
  needs_browser (state m1) = Some true →
  render env u = inr page →
  links ≠ [] →
  dict_get (Agents.resolve lower env u) "success" = VBool false
  ∧ dict_get (Agents.resolve lower env u) "error" = VStr e_static
  ∧ dict_get (Agents.resolve lower env u) "download_links" = VList links
  ∧ ∃ first rest, links = first :: rest
    ∧ dict_get (Agents.resolve lower env u) "recommended_link" = VStr first.
Proof.
  intros m1 links Herr Hflag Hrender Hlinks.
  rewrite (resolve_escalated lower env u Hflag). fold m1.
  pose proof (analyze_url_url lower env u) as Hu. fold m1 in Hu.
  rewrite <- Hu in Hrender.
  rewrite (analyze_with_browser_returned lower env m1 page Hrender). fold links.
  rewrite bool_decide_eq_false_2 by exact Hlinks.
  pose proof (analyze_url_outcome lower env u) as Hout. fold m1 in Hout.
  destruct Hout as [a _ Hnone _ _ | Hst _ | e Hst].
  - rewrite Hnone in Herr. discriminate.
  - rewrite Hst in Hflag. discriminate.
  - rewrite Hst in Herr |- *. injection Herr as <-.
    destruct links as [|first rest]; [done|].
    cbn. repeat split. by exists first, rest.
Qed.

Lemma static_error_kept_with_browser_links_witness :
  let m1 := Agents.analyze_url Py.ascii_lower Scenario.recovered_env
              (mkMachine (initial_state Scenario.page_url) []) in
  let result := Agents.resolve Py.ascii_lower Scenario.recovered_env Scenario.page_url in
  error (state m1)
  = Some "Error analyzing URL: 403 Client Error: Forbidden for url: https://example.com/page"
  ∧ dict_get result "success" = VBool false
  ∧ dict_get result "error"
    = VStr "Error analyzing URL: 403 Client Error: Forbidden for url: https://example.com/page"
  ∧ dict_get result "download_links"
    = VList ["https://example.com/files/setup.exe"; "https://example.com/get?id=7"]
  ∧ ∃ first rest,
      ["https://example.com/files/setup.exe"; "https://example.com/get?id=7"]
      = first :: rest
      ∧ dict_get result "recommended_link" = VStr first.
Proof.
  split; [reflexivity|].
  apply (static_error_kept_with_browser_links Py.ascii_lower Scenario.recovered_env
           Scenario.page_url
           "Error analyzing URL: 403 Client Error: Forbidden for url: https://example.com/page"
           (mkPage "Downloads"
              [("https://example.com/about", "About us");
               ("https://example.com/files/setup.exe", "Installer");
               ("https://example.com/get?id=7", "Download now")])).
  - reflexivity.
  - reflexivity.
  - reflexivity.
  - discriminate.
Defined.

(** ** The dashboard *)

Ltac unfold_streamlit :=
  unfold Streamlit.analyze_url, Streamlit.analyze_url_try,
    Agents.extract_download_links, bind, lift, modify, raise, ret.

(** What [analyze_url] of the dashboard returns. *)
Lemma dashboard_static_fields (lower : string → string) (env : Env)
    (u : string) :
  let result := fst (Streamlit.analyze_url lower env u []) in
  ∃ (b : bool) (links : list string),
    dict_get result "is_direct_download" = VBool b
    ∧ dict_get result "download_links" = VList links
    ∧ dict_get result "recommended_link"
      = (if b then VStr u
         else match links with
              | [] => VNone
              | first :: _ => VStr first
              end)
    ∧ (truthy (dict_get result "needs_browser") = true → links = []).
Proof.
  unfold_streamlit.
  destruct (urlparse env u) as [e|p];
    [by exists false, []|].
  destruct (_ || _); [by exists false, []|].
  destruct (requests_get env u) as [e|r]; [by exists false, []|].
  destruct (http_error r); [by exists false, []|].
  destruct (Agents.direct_download_check _ _ _) as [is_direct_download filename].
  destruct (Py.contains "text/html" _).
  - destruct (BeautifulSoup env (resp_text r)) as [e|soup];
      [by exists false, []|].
    exists is_direct_download,
      (absolute_links p (Agents.static_loop lower (a_tags soup))).
    destruct is_direct_download,
      (absolute_links p (Agents.static_loop lower (a_tags soup))); by cbn.
  - exists is_direct_download, []. by destruct is_direct_download.
Qed.

Lemma merge_untouched (result : gmap string val)
    (browser_result : Streamlit.BrowserResult) (k : string) :
  k ≠ "recommended_link" → k ≠ "download_links" → k ≠ "title" →
  dict_get (Streamlit.merge result browser_result) k = dict_get result k.
Proof.
  intros H1 H2 H3. unfold Streamlit.merge, dict_get.
  repeat case_match; rewrite ?lookup_insert_ne by done; reflexivity.
Qed.

Lemma merge_links (result : gmap string val)
    (browser_result : Streamlit.BrowserResult) :
  match Streamlit.br_download_links browser_result with
  | [] =>
      dict_get (Streamlit.merge result browser_result) "download_links"
      = dict_get result "download_links"
      ∧ dict_get (Streamlit.merge result browser_result) "recommended_link"
        = dict_get result "recommended_link"
  | first :: rest =>
      dict_get (Streamlit.merge result browser_result) "download_links"
      = VList (first :: rest)
      ∧ dict_get (Streamlit.merge result browser_result) "recommended_link"
        = VStr first
  end.
Proof.
  unfold Streamlit.merge, dict_get.
  destruct (Streamlit.br_download_links browser_result) as [|first rest];
    cbn [bool_decide negb hd]; repeat case_match; try done;
    split; by simplify_map_eq.
Qed.

Lemma dashboard_resolve_cases (lower : string → string) (env : Env) (u : string) :
  let result := fst (Streamlit.analyze_url lower env u []) in
  fst (Streamlit.resolve lower env u) = result
  ∨ (truthy (dict_get result "needs_browser") = true
     ∧ truthy (dict_get result "recommended_link") = false
     ∧ ∃ browser_result,
         fst (Streamlit.resolve lower env u)
         = Streamlit.merge result browser_result).
Proof.
  unfold Streamlit.resolve.
  destruct (Streamlit.analyze_url lower env u []) as [result l].
  cbn [fst].
  destruct (truthy (dict_get result "needs_browser"));
    [|by left].
  destruct (truthy (dict_get result "recommended_link"));
    [by left|].
  cbn [andb negb].
  destruct (Streamlit.analyze_with_browser lower env u l) as [browser_result l'].
  right. repeat split. by exists browser_result.
Qed.

(** X23. The dashboard keeps the invariant of C5: the handler runs on a
    non-empty input, and a direct download is never sent to the browser,
    so a true [is_direct_download] comes with the URL typed in as
    [recommended_link]. *)
Lemma dashboard_direct_download_link (lower : string → string)
    (env : Env) (u : string) (result : gmap string val) (l : list event) :
  Streamlit.button_handler lower env u = Some (result, l) →
  dict_get result "is_direct_download" = VBool true →
  dict_get result "recommended_link" = VStr u.
Proof.
  unfold Streamlit.button_handler.
  destruct (String.eqb u "") eqn:Hu; [done|].
  intros [= Hres]. apply (f_equal fst) in Hres. cbn [fst] in Hres. subst result.
  destruct (dashboard_static_fields lower env u)
    as (b & links & Hdd & _ & Hrec & _).
  destruct (dashboard_resolve_cases lower env u)
    as [-> | (_ & Hnone & browser_result & ->)].
  - rewrite Hdd, Hrec. by intros [= ->].
  - rewrite merge_untouched, Hdd by done. intros [= ->].
    rewrite Hrec in Hnone. cbn in Hnone. rewrite Hu in Hnone. done.
Qed.

(** X24. The dashboard keeps the invariant of C6 as well: with a false
    [is_direct_download], [recommended_link] is the first element of
    [download_links], or [None] when the list is empty, also after the
    merge of the rendered pass. *)
Lemma dashboard_first_link (lower : string → string)
    (env : Env) (u : string) :
  let result := fst (Streamlit.resolve lower env u) in
  dict_get result "is_direct_download" = VBool false →
  ∃ links,
    dict_get result "download_links" = VList links
    ∧ dict_get result "recommended_link"
      = match links with
        | [] => VNone
        | first :: _ => VStr first
        end.
Proof.
  destruct (dashboard_static_fields lower env u)
    as (b & links & Hdd & Hlinks & Hrec & Hflag).
  destruct (dashboard_resolve_cases lower env u)
    as [-> | (Hneeds & _ & browser_result & ->)]; cbn zeta.
  - rewrite Hdd. intros [= ->]. by exists links.
  - rewrite merge_untouched, Hdd by done. intros [= ->].
    pose proof (merge_links (fst (Streamlit.analyze_url lower env u []))
                  browser_result) as Hm.
    destruct (Streamlit.br_download_links browser_result) as [|first rest];
      destruct Hm as [-> ->].
    + rewrite Hlinks, Hrec. by exists links.
    + by exists (first :: rest).
Qed.

(** X25. In the dashboard the message of a failed rendering is never
    shown: [success] and [error] are those of the static pass. *)
Lemma dashboard_drops_render_error (lower : string → string) (env : Env)
    (u : string) :
  let result := fst (Streamlit.analyze_url lower env u []) in
  dict_get (fst (Streamlit.resolve lower env u)) "success" = dict_get result "success"
  ∧ dict_get (fst (Streamlit.resolve lower env u)) "error" = dict_get result "error".
Proof.
  destruct (dashboard_resolve_cases lower env u)
    as [-> | (_ & _ & browser_result & ->)]; cbn zeta; [done|].
  by rewrite !merge_untouched by done.
Qed.

(** The body of the handler rejects an input without scheme or host in
    the same way and calls nothing. *)
Lemma resolve_rejects_invalid_url (lower : string → string) (env : Env)
    (u : string) (parsed_url : ParseResult) :
  urlparse env u = inr parsed_url →
  scheme parsed_url = "" ∨ netloc parsed_url = "" →
  snd (Streamlit.resolve lower env u) = []
  ∧ dict_get (fst (Streamlit.resolve lower env u)) "success" = VBool false
  ∧ dict_get (fst (Streamlit.resolve lower env u)) "error"
    = VStr "Invalid URL format".
Proof.
  intros Hp Hbad.
  assert ((String.eqb (scheme parsed_url) "" || String.eqb (netloc parsed_url) "")
          = true) as Hguard.
  { destruct Hbad as [-> | ->]; [reflexivity | apply orb_true_r]. }
  unfold Streamlit.resolve. unfold_streamlit. rewrite Hp, Hguard.
  repeat split.
Qed.

(** X27. The flag of the dashboard follows the same rule as C2: it is
    true exactly for an HTML response without extracted link. *)
Lemma dashboard_flag (lower : string → string) (env : Env) (u : string)
    (parsed_url : ParseResult) (response : Response) (soup : Soup) :
  urlparse env u = inr parsed_url →
  scheme parsed_url ≠ "" →
  netloc parsed_url ≠ "" →
  requests_get env u = inr response →
  http_error response = None →
  BeautifulSoup env (resp_text response) = inr soup →
  let is_html :=
    Py.contains "text/html" (default "" (content_type_header response)) in
  dict_get (fst (Streamlit.analyze_url lower env u [])) "needs_browser"
  = VBool (is_html
           && bool_decide (absolute_links parsed_url
                             (Agents.static_loop lower (a_tags soup)) = [])).
Proof.
  intros Hp Hs Hn Hget Herr Hsoup is_html. subst is_html.
  unfold_streamlit. rewrite Hp.
  apply String.eqb_neq in Hs, Hn. rewrite Hs, Hn. cbn [orb].
  rewrite Hget, Herr, Hsoup.
  destruct (Agents.direct_download_check _ _ _) as [is_direct_download filename].
  destruct (Py.contains "text/html" _), is_direct_download;
    cbn; repeat case_match; done.
Qed.

(** * Further properties of the code *)

(** ** Splitting a path and joining it again *)

Lemma join_cons_nonempty (sep x : string) (l : list string) :
  l ≠ [] → Py.join sep (x :: l) = x +:+ sep +:+ Py.join sep l.
Proof. by destruct l. Qed.

Lemma join_split (sep : ascii) (s : string) :
  Py.join (String sep "") (Py.split sep s) = s.
Proof.
  induction s as [|c s IH]; [reflexivity|].
  cbn [Py.split]. destruct (Ascii.eqb c sep) eqn:Hc.
  - apply Ascii.eqb_eq in Hc as ->.
    rewrite join_cons_nonempty by apply split_not_nil.
    by rewrite IH.
  - destruct (Py.split sep s) as [|h t] eqn:Hsplit;
      [by destruct (split_not_nil sep s)|].
    rewrite <- IH. by destruct t.
Qed.

Lemma join_last (sep : string) (l : list string) :
  removelast l ≠ [] →
  Py.join sep l = Py.join sep (removelast l) +:+ sep +:+ List.last l "".
Proof.
  induction l as [|x l IH]; [done|].
  destruct l as [|y l]; [done|]. intros _.
  rewrite join_cons_nonempty by done.
  destruct l as [|z l]; [reflexivity|].
  rewrite IH by done.
  change (removelast (x :: y :: z :: l)) with (x :: removelast (y :: z :: l)).
  rewrite join_cons_nonempty by done.
  change (List.last (x :: y :: z :: l) "") with (List.last (y :: z :: l) "").
  by rewrite !append_assoc.
Qed.

Lemma split_without_separator (sep : ascii) (s : string) :
  Py.contains (String sep "") s = false → Py.split sep s = [s].
Proof.
  induction s as [|c s IH]; [reflexivity|].
  cbn [Py.contains Py.split String.prefix].
  destruct (Ascii.ascii_dec sep c) as [->|Hne].
  - by destruct s.
  - rewrite orb_false_l. intros Hrest. rewrite (IH Hrest).
    destruct (Ascii.eqb c sep) eqn:Hc; [|reflexivity].
    apply Ascii.eqb_eq in Hc. by destruct Hne.
Qed.

Lemma split_with_separator (sep : ascii) (s : string) :
  Py.contains (String sep "") s = true → removelast (Py.split sep s) ≠ [].
Proof.
  induction s as [|c s IH]; [done|].
  cbn [Py.contains Py.split String.prefix].
  destruct (Ascii.eqb c sep) eqn:Hc.
  - intros _. pose proof (split_not_nil sep s).
    by destruct (Py.split sep s).
  - destruct (Ascii.ascii_dec sep c) as [->|Hne];
      [by rewrite Ascii.eqb_refl in Hc|].
    rewrite orb_false_l. intros Hrest. specialize (IH Hrest).
    destruct (Py.split sep s) as [|h [|h' t]]; done.
Qed.

(** The directory computed by the relative rule
    is the base path without its last segment: for a path that contains
    a slash, directory and last segment together give the path back;
    for a path without slash (the empty path of a bare host) the
    directory is the single slash. *)
Theorem base_directory_and_last_segment (p : string) :
  let directory := Py.join "/" (Py.all_but_last (Py.split "/" p)) +:+ "/" in
  if Py.contains "/" p
  then directory +:+ Py.last_item (Py.split "/" p) = p
  else directory = "/".
Proof.
  intros directory. subst directory. unfold Py.all_but_last, Py.last_item.
  destruct (Py.contains "/" p) eqn:Hslash.
  - rewrite append_assoc.
    rewrite <- (join_last "/" (Py.split "/" p))
      by exact (split_with_separator "/" p Hslash).
    apply (join_split "/" p).
  - by rewrite (split_without_separator "/" p Hslash).
Qed.

Lemma split_segments_without_separator (sep : ascii) (s : string) :
  Forall (λ seg, Py.contains (String sep "") seg = false) (Py.split sep s).
Proof.
  induction s as [|c s IH]; [by repeat constructor|].
  cbn [Py.split]. destruct (Ascii.eqb c sep) eqn:Hc.
  - by constructor.
  - pose proof (split_not_nil sep s) as Hnil.
    destruct (Py.split sep s) as [|h t]; [done|].
    inversion IH as [|? ? Hh Ht]; subst. constructor; [|exact Ht].
    cbn [Py.contains String.prefix].
    destruct (Ascii.ascii_dec sep c) as [->|Hne];
      [by rewrite Ascii.eqb_refl in Hc | exact Hh].
Qed.

Lemma last_segment_without_separator (sep : ascii) (s : string) :
  Py.contains (String sep "") (Py.last_item (Py.split sep s)) = false.
Proof.
  pose proof (split_segments_without_separator sep s) as Hall.
  pose proof (split_not_nil sep s) as Hne.
  unfold Py.last_item.
  induction (Py.split sep s) as [|x l IH]; [done|].
  inversion Hall as [|? ? Hx Hl]; subst.
  destruct l as [|y l]; [exact Hx | by apply IH].
Qed.

Lemma last_segment_suffix (s : string) :
  Py.endswith s (Py.last_item (Py.split "/" s)) = true.
Proof.
  apply endswith_spec. unfold Py.last_item.
  destruct (Py.contains "/" s) eqn:Hslash.
  - exists (Py.join "/" (removelast (Py.split "/" s)) +:+ "/").
    rewrite append_assoc.
    rewrite <- (join_last "/" (Py.split "/" s))
      by exact (split_with_separator "/" s Hslash).
    symmetry. apply (join_split "/" s).
  - exists "". by rewrite (split_without_separator "/" s Hslash).
Qed.

(** X2. When the lower-cased URL ends with a configured extension, the
    filename of the direct-download check is a suffix of the URL and
    holds no slash, whatever the Content-Disposition header says. *)
Theorem url_filename_is_last_segment (lower : string → string)
    (u content_disposition : string) :
  Py.any (λ ext, Py.endswith (lower u) ext) file_extensions = true →
  ∃ filename,
    Agents.direct_download_check lower u content_disposition
    = (true, Some filename)
    ∧ Py.endswith u filename = true
    ∧ Py.contains "/" filename = false.
Proof.
  intros Hext. exists (Py.last_item (Py.split "/" u)). split.
  - unfold Agents.direct_download_check.
    destruct (Py.contains "attachment" content_disposition);
      by rewrite extension_loop_any, Hext.
  - split; [apply last_segment_suffix | apply last_segment_without_separator].
Qed.

Lemma url_filename_is_last_segment_witness :
  Py.any (λ ext, Py.endswith (Py.ascii_lower "https://cdn.example.com/v2/Setup.EXE") ext)
    file_extensions = true
  ∧ ∃ filename,
      Agents.direct_download_check Py.ascii_lower
        "https://cdn.example.com/v2/Setup.EXE" Scenario.attachment_header
      = (true, Some filename)
      ∧ Py.endswith "https://cdn.example.com/v2/Setup.EXE" filename = true
      ∧ Py.contains "/" filename = false.
Proof.
  split; [reflexivity|].
  apply (url_filename_is_last_segment Py.ascii_lower
           "https://cdn.example.com/v2/Setup.EXE" Scenario.attachment_header).
  reflexivity.
Defined.

(** ** The filename of the header *)

Lemma not_quote_run_prefix (s : string) : ∃ post, s = not_quote_run s +:+ post.
Proof.
  induction s as [|c s [post IH]]; [by exists ""|].
  cbn [not_quote_run]. destruct (Ascii.eqb c dquote).
  - by exists (String c s).
  - exists post. by rewrite IH at 1.
Qed.

Lemma not_quote_run_without_quote (s : string) :
  Py.contains (String dquote "") (not_quote_run s) = false.
Proof.
  induction s as [|c s IH]; [reflexivity|].
  cbn [not_quote_run]. destruct (Ascii.eqb c dquote) eqn:Hc; [reflexivity|].
  cbn [Py.contains String.prefix].
  destruct (Ascii.ascii_dec dquote c) as [<-|Hne];
    [by rewrite Ascii.eqb_refl in Hc | exact IH].
Qed.

Lemma filename_match_here_group (s g : string) :
  filename_match_here s = Some g →
  g ≠ ""
  ∧ Py.contains (String dquote "") g = false
  ∧ ∃ pre post, s = pre +:+ g +:+ post.
Proof.
  unfold filename_match_here.
  destruct (String.prefix "filename=" s) eqn:Hp; [|done].
  apply (startswith_spec s "filename=") in Hp as [rest ->].
  change (drop_prefix 9 ("filename=" +:+ rest)) with rest.
  set (rest' := match rest with
                | "" => rest
                | String c r => if Ascii.eqb c dquote then r else rest
                end).
  destruct (String.eqb (not_quote_run rest') "") eqn:Hempty; [done|].
  intros [= <-]. split; [by apply String.eqb_neq|].
  split; [apply not_quote_run_without_quote|].
  destruct (not_quote_run_prefix rest') as [post Hpost].
  subst rest'. destruct rest as [|c r].
  - exists "filename=", post. by rewrite Hpost at 1.
  - destruct (Ascii.eqb c dquote).
    + exists ("filename=" +:+ String c ""), post.
      rewrite Hpost at 1. by rewrite !append_assoc.
    + exists "filename=", post. by rewrite Hpost at 1.
Qed.

(** X3. A filename found by the pattern of [analyze_url] is never empty,
    holds no double quote, and is a piece of the header it was searched
    in. *)
Theorem header_filename_shape (content_disposition g : string) :
  re_search_filename content_disposition = Some g →
  g ≠ ""
  ∧ Py.contains (String dquote "") g = false
  ∧ Py.contains g content_disposition = true.
Proof.
  intros Hsearch.
  enough (g ≠ "" ∧ Py.contains (String dquote "") g = false
          ∧ ∃ pre post, content_disposition = pre +:+ g +:+ post)
    as (H1 & H2 & H3)
    by (split; [exact H1 | split; [exact H2 | by apply contains_spec]]).
  revert Hsearch.
  induction content_disposition as [|c s IH]; cbn [re_search_filename].
  - destruct (filename_match_here "") eqn:Hhere; [|done].
    intros [= ->]. by apply filename_match_here_group.
  - destruct (filename_match_here (String c s)) eqn:Hhere.
    + intros [= ->]. by apply filename_match_here_group.
    + intros Hrest. destruct (IH Hrest) as (H1 & H2 & pre & post & ->).
      split; [exact H1|]. split; [exact H2|]. by exists (String c pre), post.
Qed.

Lemma header_filename_shape_witness :
  re_search_filename Scenario.attachment_header = Some "report.zip"
  ∧ "report.zip" ≠ ""
  ∧ Py.contains (String dquote "") "report.zip" = false
  ∧ Py.contains "report.zip" Scenario.attachment_header = true.
Proof.
  split; [reflexivity|].
  apply (header_filename_shape Scenario.attachment_header "report.zip").
  reflexivity.
Defined.

(** ** The lists of links *)

(** When the page URL has scheme http or https, every link the static
    pass stores in the state starts with the letters [http]. *)
Theorem static_links_start_with_http (lower : string → string) (env : Env)
    (u : string) (parsed_url : ParseResult) (links : list string) :
  urlparse env u = inr parsed_url →
  scheme parsed_url = "http" ∨ scheme parsed_url = "https" →
  download_links (state (Agents.analyze_url lower env
                           (mkMachine (initial_state u) []))) = Some links →
  Forall (λ link, Py.startswith link "http" = true) links.
Proof.
  intros Hp Hs. unfold_static. rewrite Hp.
  destruct (_ || _); [done|].
  destruct (requests_get env u) as [e|r]; [done|].
  destruct (http_error r); [done|].
  destruct (Agents.direct_download_check _ _ _) as [is_direct_download filename].
  destruct (Py.contains "text/html" _); [|done].
  destruct (BeautifulSoup env (resp_text r)) as [e|soup]; [done|].
  assert (Forall (λ link, Py.startswith link "http" = true)
            (absolute_links parsed_url (Agents.static_loop lower (a_tags soup))))
    as Hall.
  { unfold absolute_links. apply Forall_map, Forall_forall.
    intros link _. by apply absolute_link_http. }
  destruct (bool_decide _); cbn; by intros [= <-].
Qed.

Lemma static_links_start_with_http_witness :
  scheme (mkParse "https" "example.com" "/page") = "https"
  ∧ download_links (state (Agents.analyze_url Py.ascii_lower Scenario.page_env
                             (mkMachine (initial_state Scenario.page_url) [])))
    = Some ["https://example.com/files/doc.pdf"]
  ∧ Forall (λ link, Py.startswith link "http" = true)
      ["https://example.com/files/doc.pdf"].
Proof.
  split; [reflexivity|]. split; [reflexivity|].
  apply (static_links_start_with_http Py.ascii_lower Scenario.page_env
           Scenario.page_url (mkParse "https" "example.com" "/page")).
  - reflexivity.
  - right. reflexivity.
  - reflexivity.
Defined.

(** X5. Both loops keep the document order and drop nothing they have
    accepted: the hrefs they collect are a subsequence of the hrefs of the
    anchors, a repeated anchor is collected as often as it occurs. *)
Theorem loops_keep_document_order (lower : string → string)
    (tags tags' : list ATag) (elems elems' : list (string * string)) :
  sublist (Agents.static_loop lower tags) (href <$> tags)
  ∧ sublist (Agents.browser_loop lower elems) (fst <$> elems)
  ∧ Agents.static_loop lower (tags ++ tags')
    = (Agents.static_loop lower tags ++ Agents.static_loop lower tags')%list
  ∧ Agents.browser_loop lower (elems ++ elems')
    = (Agents.browser_loop lower elems ++ Agents.browser_loop lower elems')%list.
Proof.
  repeat split.
  - induction tags as [|a_tag rest IH]; [constructor|].
    cbn [Agents.static_loop fmap list_fmap].
    destruct (Agents.static_accepts lower a_tag); by constructor.
  - induction elems as [|[h t] rest IH]; [constructor|].
    cbn [Agents.browser_loop fmap list_fmap fst].
    destruct (Agents.browser_accepts lower h t); by constructor.
  - induction tags as [|a_tag rest IH]; [reflexivity|].
    cbn [Agents.static_loop app].
    destruct (Agents.static_accepts lower a_tag); by rewrite IH.
  - induction elems as [|[h t] rest IH]; [reflexivity|].
    cbn [Agents.browser_loop app].
    destruct (Agents.browser_accepts lower h t); by rewrite IH.
Qed.

(** X6. An anchor that carries a [download] attribute is always
    collected by the static loop, whatever its text and href. *)
Theorem download_attribute_always_collected (lower : string → string)
    (tags : list ATag) (a_tag : ATag) :
  a_tag ∈ tags →
  download a_tag ≠ None →
  href a_tag ∈ Agents.static_loop lower tags.
Proof.
  intros Hin Hattr.
  assert (Agents.static_accepts lower a_tag = true) as Hacc.
  { unfold Agents.static_accepts. by rewrite bool_decide_eq_true_2. }
  induction Hin as [a_tag rest | a_tag other rest Hin IH];
    cbn [Agents.static_loop].
  - rewrite Hacc. apply list_elem_of_here.
  - destruct (Agents.static_accepts lower other);
      [apply list_elem_of_further|]; by apply IH.
Qed.

Lemma download_attribute_always_collected_witness :
  let tags := [mkATag "/about" "About" None;
               mkATag "/get?id=7" "Fetch" (Some "")] in
  mkATag "/get?id=7" "Fetch" (Some "") ∈ tags
  ∧ "/get?id=7" ∈ Agents.static_loop Py.ascii_lower tags.
Proof.
  assert (mkATag "/get?id=7" "Fetch" (Some "")
          ∈ [mkATag "/about" "About" None; mkATag "/get?id=7" "Fetch" (Some "")])
    as Hin by (apply list_elem_of_further, list_elem_of_here).
  split; [exact Hin|].
  apply (download_attribute_always_collected Py.ascii_lower _
           (mkATag "/get?id=7" "Fetch" (Some "")) Hin).
  discriminate.
Defined.

Lemma browser_accepts_then_static (lower : string → string) (a_tag : ATag) :
  Agents.browser_accepts lower (href a_tag) (text a_tag) = true →
  Agents.static_accepts lower a_tag = true.
Proof.
  unfold Agents.browser_accepts, Agents.static_accepts.
  rewrite any_or. intros Hb.
  destruct (bool_decide _); [reflexivity|].
  destruct (Py.any _ download_keywords), (Py.any _ download_keywords),
    (Py.any _ file_extensions); done.
Qed.

(** X7. On the same anchors the rendered loop never finds a link the
    static loop misses: what it collects is a subsequence of what the
    static loop collects. *)
Theorem browser_links_within_static_links (lower : string → string)
    (tags : list ATag) :
  sublist (Agents.browser_loop lower ((λ a_tag, (href a_tag, text a_tag)) <$> tags))
          (Agents.static_loop lower tags).
Proof.
  induction tags as [|a_tag rest IH]; [constructor|].
  cbn [fmap list_fmap Agents.browser_loop Agents.static_loop].
  destruct (Agents.browser_accepts lower (href a_tag) (text a_tag)) eqn:Hb.
  - rewrite (browser_accepts_then_static lower a_tag Hb). by constructor.
  - destruct (Agents.static_accepts lower a_tag); [by constructor | exact IH].
Qed.

(** ** The result of a run of the graph *)

Lemma analyze_url_log (lower : string → string) (env : Env) (u : string) :
  let m1 := Agents.analyze_url lower env (mkMachine (initial_state u) []) in
  log m1 = [] ∨ log m1 = [HttpGet u].
Proof.
  unfold_static.
  destruct (urlparse env u) as [e|p]; [by left|].
  destruct (_ || _); [by left|].
  destruct (requests_get env u) as [e|r]; [by right|].
  destruct (http_error r); [by right|].
  destruct (Agents.direct_download_check _ _ _) as [is_direct_download filename].
  destruct (Py.contains "text/html" _); [|by right].
  destruct (BeautifulSoup env (resp_text r)) as [e|soup]; [by right|].
  destruct (bool_decide _); by right.
Qed.

Lemma analyze_with_browser_log (lower : string → string) (env : Env) (m : Machine) :
  log (Agents.analyze_with_browser lower env m)
  = (log m ++ [BrowserLaunch (url (state m))])%list.
Proof.
  destruct m as [st l]. unfold_browser.
  destruct (render env (url st)) as [e|page]; cbn [state log]; [reflexivity|].
  destruct (negb _); reflexivity.
Qed.

Lemma analyze_with_browser_error (lower : string → string) (env : Env) (m : Machine) :
  error (state (Agents.analyze_with_browser lower env m)) = error (state m)
  ∨ (error (state m) = None ∨ error (state m) = Some "")
    ∧ ∃ e, error (state (Agents.analyze_with_browser lower env m))
           = Some ("Error analyzing URL with browser: " +:+ e).
Proof.
  destruct m as [st l]. unfold_browser.
  destruct (render env (url st)) as [e|page]; cbn [state log].
  - unfold Agents.no_error.
    destruct (error st) as [msg|] eqn:Herr; cbn.
    + destruct (String.eqb msg "") eqn:Hmsg; cbn; [|by left].
      apply String.eqb_eq in Hmsg as ->. right. split; [by right | by exists e].
    + right. split; [by left | by exists e].
  - left. destruct (Agents.no_analysis st), (negb _); reflexivity.
Qed.

Lemma analyze_url_error (lower : string → string) (env : Env) (u : string) :
  let m1 := Agents.analyze_url lower env (mkMachine (initial_state u) []) in
  error (state m1) = None
  ∨ ∃ msg, error (state m1) = Some msg ∧ msg ≠ "".
Proof.
  destruct (analyze_url_outcome lower env u) as [a _ Herr _ _ | Hst _ | e Hst];
    cbn zeta.
  - by left.
  - right. rewrite Hst. by eexists.
  - right. rewrite Hst. by eexists.
Qed.

Lemma before_final_state (lower : string → string) (env : Env) (u : string) :
  ∃ st, url st = u
  ∧ Agents.resolve lower env u
    = default ∅ (final_result (Agents.prepare_final_result st))
  ∧ (error st = None ∨ ∃ msg, error st = Some msg ∧ msg ≠ "").
Proof.
  unfold Agents.resolve. rewrite ainvoke_END. cbn [snd state on_state].
  eexists. split; [|split; [reflexivity|]].
  - destruct (Agents.needs_browser_router _);
      rewrite ?analyze_with_browser_url; apply analyze_url_url.
  - pose proof (analyze_url_error lower env u) as Hstatic. cbn zeta in Hstatic.
    destruct (Agents.needs_browser_router _); try exact Hstatic.
    destruct (analyze_with_browser_error lower env
                (Agents.analyze_url lower env (mkMachine (initial_state u) [])))
      as [-> | [_ [e ->]]]; [exact Hstatic|].
    right. by eexists.
Qed.

(** X8. In the result of every run, [success] is true exactly when
    [error] is [None]; otherwise [success] is false and [error] is a
    non-empty string. *)
Theorem success_or_error_message (lower : string → string) (env : Env)
    (u : string) :
  let result := Agents.resolve lower env u in
  (dict_get result "success" = VBool true ∧ dict_get result "error" = VNone)
  ∨ (dict_get result "success" = VBool false
     ∧ ∃ msg, dict_get result "error" = VStr msg ∧ msg ≠ "").
Proof.
  destruct (before_final_state lower env u) as (st & _ & Hres & Herr).
  cbn zeta. rewrite Hres.
  destruct (prepare_final_result_fields st) as (r & -> & Hsucc & Herror & _).
  simpl. rewrite Hsucc, Herror.
  destruct Herr as [-> | (msg & -> & Hmsg)].
  - by left.
  - right. split; [reflexivity | by exists msg].
Qed.

(** X9. The result of every run has exactly the eight keys of the
    response model, so it is never the empty dictionary that [main.py]
    answers with status 500. *)
Theorem result_keys (lower : string → string) (env : Env) (u : string) :
  dom (Agents.resolve lower env u)
  = ({["success"; "url"; "error"; "is_direct_download"; "download_links";
       "recommended_link"; "title"; "content_type"]} : gset string)
  ∧ Agents.resolve lower env u ≠ ∅
  ∧ dict_get (Agents.resolve lower env u) "url" = VStr u.
Proof.
  destruct (resolve_final lower env u) as (st & Hu & ->).
  unfold Agents.prepare_final_result. cbn [final_result set_final_result default].
  destruct (truthy _); [|destruct (negb _)]; cbn [from_option id];
    (split; [rewrite !dom_insert_L, dom_empty_L; set_solver|]);
    (split; [apply insert_non_empty | by rewrite <- Hu]).
Qed.

(** ** Calls that leave the process *)

Lemma ainvoke_log (lower : string → string) (env : Env) (u : string) :
  let m1 := Agents.analyze_url lower env (mkMachine (initial_state u) []) in
  log (snd (Agents.ainvoke lower env u))
  = if default false (needs_browser (state m1))
    then (log m1 ++ [BrowserLaunch u])%list
    else log m1.
Proof.
  cbn zeta. rewrite ainvoke_END. cbn [snd log on_state].
  unfold Agents.needs_browser_router.
  destruct (default false _); [|reflexivity].
  by rewrite analyze_with_browser_log, analyze_url_url.
Qed.

(** X10. A run makes at most one GET and at most one browser session,
    the GET first, both for the URL of the request; the browser is
    started exactly when the static pass has set [needs_browser]. *)
Theorem outside_calls (lower : string → string) (env : Env) (u : string) :
  let m1 := Agents.analyze_url lower env (mkMachine (initial_state u) []) in
  let calls := log (snd (Agents.ainvoke lower env u)) in
  (calls = [] ∨ calls = [HttpGet u] ∨ calls = [BrowserLaunch u]
   ∨ calls = [HttpGet u; BrowserLaunch u])
  ∧ (BrowserLaunch u ∈ calls ↔ needs_browser (state m1) = Some true).
Proof.
  intros m1 calls. subst calls. rewrite ainvoke_log. fold m1.
  pose proof (analyze_url_log lower env u) as Hlog. fold m1 in Hlog.
  destruct (needs_browser (state m1)) as [[|]|]; cbn [default from_option id];
    destruct Hlog as [-> | ->]; cbn [app]; (split; [tauto|]);
    rewrite ?elem_of_cons, ?elem_of_nil; intuition congruence.
Qed.

Lemma resolve_with_static_error (lower : string → string) (env : Env)
    (u msg : string) :
  let m1 := Agents.analyze_url lower env (mkMachine (initial_state u) []) in
  error (state m1) = Some msg →
  msg ≠ "" →
  needs_browser (state m1) = Some true →
  dict_get (Agents.resolve lower env u) "success" = VBool false
  ∧ dict_get (Agents.resolve lower env u) "error" = VStr msg.
Proof.
  intros m1 Herr Hmsg Hflag.
  rewrite (resolve_escalated lower env u Hflag). fold m1.
  destruct (prepare_final_result_fields
              (state (Agents.analyze_with_browser lower env m1)))
    as (r & -> & Hsucc & Herror & _).
  assert (error (state (Agents.analyze_with_browser lower env m1)) = Some msg)
    as Hkept.
  { destruct (analyze_with_browser_error lower env m1)
      as [-> | [[Hnone | Hempty] _]]; [exact Herr | congruence | congruence]. }
  simpl. by rewrite Hsucc, Herror, Hkept.
Qed.

(** X11. When [urlparse] itself raises, no GET is made, yet the browser
    is started for the unparsed input; the result has [success] false and
    the message of the exception behind [Error analyzing URL: ]. *)
Theorem unparsable_url_starts_browser (lower : string → string) (env : Env)
    (u : string) (e : exn) :
  urlparse env u = inl e →
  log (snd (Agents.ainvoke lower env u)) = [BrowserLaunch u]
  ∧ dict_get (Agents.resolve lower env u) "success" = VBool false
  ∧ dict_get (Agents.resolve lower env u) "error"
    = VStr ("Error analyzing URL: " +:+ e).
Proof.
  intros Hp.
  assert (Agents.analyze_url lower env (mkMachine (initial_state u) [])
          = mkMachine (set_needs_browser true
                         (set_error ("Error analyzing URL: " +:+ e)
                            (initial_state u))) []) as Hm1.
  { unfold_static. by rewrite Hp. }
  split.
  - rewrite ainvoke_log, Hm1. reflexivity.
  - apply resolve_with_static_error; rewrite ?Hm1; done.
Qed.

(** X12. When the GET raises, or answers with an error status, the body
    is not looked at: the run makes the GET, starts the browser, and ends
    with [success] false and the message of the exception behind
    [Error analyzing URL: ], whatever the browser finds. *)
Theorem failed_get_starts_browser (lower : string → string) (env : Env)
    (u : string) (parsed_url : ParseResult) (e : exn) :
  urlparse env u = inr parsed_url →
  scheme parsed_url ≠ "" →
  netloc parsed_url ≠ "" →
  requests_get env u = inl e
  ∨ (∃ response, requests_get env u = inr response
                 ∧ http_error response = Some e) →
  log (snd (Agents.ainvoke lower env u)) = [HttpGet u; BrowserLaunch u]
  ∧ dict_get (Agents.resolve lower env u) "success" = VBool false
  ∧ dict_get (Agents.resolve lower env u) "error"
    = VStr ("Error analyzing URL: " +:+ e).
Proof.
  intros Hp Hs Hn Hget.
  assert (Agents.analyze_url lower env (mkMachine (initial_state u) [])
          = mkMachine (set_needs_browser true
                         (set_error ("Error analyzing URL: " +:+ e)
                            (initial_state u))) [HttpGet u]) as Hm1.
  { unfold_static. rewrite Hp.
    apply String.eqb_neq in Hs, Hn. rewrite Hs, Hn. cbn [orb].
    destruct Hget as [-> | (response & -> & ->)]; reflexivity. }
  split.
  - rewrite ainvoke_log, Hm1. reflexivity.
  - apply resolve_with_static_error; rewrite ?Hm1; done.
Qed.

(** ** Runs that end without the browser *)

(** X13. When the static pass finds at least one link on an HTML page,
    the run makes one GET and nothing else; the result has [success]
    true, the normalised links in document order, the title and content
    type of the response, and recommends the first link, or the URL of the
    request for a direct download. *)
Theorem static_links_end_the_run (lower : string → string) (env : Env)
    (u : string) (parsed_url : ParseResult) (response : Response) (soup : Soup)
    (first : string) (rest : list string) :
  urlparse env u = inr parsed_url →
  scheme parsed_url ≠ "" →
  netloc parsed_url ≠ "" →
  requests_get env u = inr response →
  http_error response = None →
  Py.contains "text/html" (default "" (content_type_header response)) = true →
  BeautifulSoup env (resp_text response) = inr soup →
  Agents.static_loop lower (a_tags soup) = first :: rest →
  let result := Agents.resolve lower env u in
  log (snd (Agents.ainvoke lower env u)) = [HttpGet u]
  ∧ dict_get result "success" = VBool true
  ∧ dict_get result "download_links"
    = VList (absolute_links parsed_url (first :: rest))
  ∧ dict_get result "title" = of_opt_str (title_tag soup)
  ∧ dict_get result "content_type"
    = VStr (default "" (content_type_header response))
  ∧ dict_get result "recommended_link"
    = if fst (Agents.direct_download_check lower u
                (default "" (content_disposition_header response)))
      then VStr u
      else VStr (absolute_link parsed_url first).
Proof.
  intros Hp Hs Hn Hget Herr Hhtml Hsoup Hloop result. subst result.
  unfold Agents.resolve. rewrite ainvoke_log, ainvoke_END.
  unfold_static. rewrite Hp.
  apply String.eqb_neq in Hs, Hn. rewrite Hs, Hn. cbn [orb].
  rewrite Hget, Herr, Hhtml, Hsoup, Hloop.
  destruct (Agents.direct_download_check _ _ _) as [[|] filename];
    cbn; repeat split.
Qed.

(** X14. A response that is not HTML is never parsed and never sent to
    the browser: the run makes one GET, the result has [success] true, no
    title, an empty list of links, and recommends the URL of the request
    for a direct download and nothing otherwise. *)
Theorem non_html_ends_the_run (lower : string → string) (env : Env)
    (u : string) (parsed_url : ParseResult) (response : Response) :
  urlparse env u = inr parsed_url →
  scheme parsed_url ≠ "" →
  netloc parsed_url ≠ "" →
  requests_get env u = inr response →
  http_error response = None →
  Py.contains "text/html" (default "" (content_type_header response)) = false →
  let result := Agents.resolve lower env u in
  let is_direct_download :=
    fst (Agents.direct_download_check lower u
           (default "" (content_disposition_header response))) in
  log (snd (Agents.ainvoke lower env u)) = [HttpGet u]
  ∧ dict_get result "success" = VBool true
  ∧ dict_get result "title" = VNone
  ∧ dict_get result "download_links" = VList []
  ∧ dict_get result "is_direct_download" = VBool is_direct_download
  ∧ dict_get result "recommended_link"
    = if is_direct_download then VStr u else VNone.
Proof.
  intros Hp Hs Hn Hget Herr Hhtml result is_direct_download.
  subst result is_direct_download.
  unfold Agents.resolve. rewrite ainvoke_log, ainvoke_END.
  unfold_static. rewrite Hp.
  apply String.eqb_neq in Hs, Hn. rewrite Hs, Hn. cbn [orb].
  rewrite Hget, Herr, Hhtml.
  destruct (Agents.direct_download_check _ _ _) as [[|] filename];
    cbn; repeat split.
Qed.

(** ** What the rendered pass adds to the state *)

Lemma prepare_final_result_page_fields (st : AgentState) :
  ∃ r, final_result (Agents.prepare_final_result st) = Some r
  ∧ dict_get r "title" = dict_get (default ∅ (analysis st)) "title"
  ∧ dict_get r "content_type" = dict_get (default ∅ (analysis st)) "content_type".
Proof.
  unfold Agents.prepare_final_result.
  destruct (truthy (dict_get (default ∅ (analysis st)) "is_direct_download"));
    [|destruct (negb _)]; eexists; (split; [reflexivity|]); split; reflexivity.
Qed.

Lemma analyze_with_browser_analysis (lower : string → string) (env : Env)
    (m : Machine) (a : gmap string val) :
  analysis (state m) = Some a →
  a ≠ ∅ →
  analysis (state (Agents.analyze_with_browser lower env m)) = Some a.
Proof.
  intros Ha Hne. destruct m as [st l]. cbn [state] in Ha. unfold_browser.
  assert (Agents.no_analysis st = false) as Hno.
  { unfold Agents.no_analysis. rewrite Ha. by apply bool_decide_eq_false_2. }
  destruct (render env (url st)) as [e|page]; cbn [state].
  - by destruct (Agents.no_error st).
  - rewrite Hno. by destruct (negb _).
Qed.

(** X15. Once the static pass has produced an analysis, the rendered
    pass never changes it: the title, content type and direct-download
    flag of the result are those of the static analysis, and a title read
    by the browser is not used. *)
Theorem rendered_pass_keeps_analysis (lower : string → string) (env : Env)
    (u : string) (a : gmap string val) :
  analysis (state (Agents.analyze_url lower env
                     (mkMachine (initial_state u) []))) = Some a →
  dict_get (Agents.resolve lower env u) "title" = dict_get a "title"
  ∧ dict_get (Agents.resolve lower env u) "content_type"
    = dict_get a "content_type"
  ∧ dict_get (Agents.resolve lower env u) "is_direct_download"
    = dict_get_or a "is_direct_download" (VBool false).
Proof.
  intros Ha.
  assert (a ≠ ∅) as Hne.
  { destruct (analyze_url_outcome lower env u) as [a' _ _ Ha' Hne | Hst _ | e Hst].
    - rewrite Ha' in Ha. by injection Ha as <-.
    - by rewrite Hst in Ha.
    - by rewrite Hst in Ha. }
  assert (∃ st, analysis st = Some a
                ∧ Agents.resolve lower env u
                  = default ∅ (final_result (Agents.prepare_final_result st)))
    as (st & Hst & ->).
  { unfold Agents.resolve. rewrite ainvoke_END. cbn [snd state on_state].
    eexists. split; [|reflexivity].
    destruct (Agents.needs_browser_router _); try exact Ha.
    by apply analyze_with_browser_analysis. }
  destruct (prepare_final_result_page_fields st) as (r & Hr & Htitle & Htype).
  destruct (prepare_final_result_fields st) as (r' & Hr' & _ & _ & Hdd & _).
  rewrite Hr in Hr'. injection Hr' as <-. rewrite Hr. simpl.
  by rewrite Htitle, Htype, Hdd, Hst.
Qed.

(** X16. When the static pass has failed and the rendering succeeds, the
    result describes the rendered page: its title, no content type, not a
    direct download, the links of the rendered loop (possibly none) and
    the first of them, if any, as recommendation. *)
Theorem rendered_page_after_static_error (lower : string → string) (env : Env)
    (u msg : string) (page : Page) :
  let m1 := Agents.analyze_url lower env (mkMachine (initial_state u) []) in
  let links := Agents.browser_loop lower (elements page) in
  error (state m1) = Some msg →
  needs_browser (state m1) = Some true →
  render env u = inr page →
  dict_get (Agents.resolve lower env u) "title" = VStr (page_title page)
  ∧ dict_get (Agents.resolve lower env u) "content_type" = VNone
  ∧ dict_get (Agents.resolve lower env u) "is_direct_download" = VBool false
  ∧ dict_get (Agents.resolve lower env u) "download_links" = VList links
  ∧ dict_get (Agents.resolve lower env u) "recommended_link"
    = match links with
      | [] => VNone
      | first :: _ => VStr first
      end.
Proof.
  intros m1 links Herr Hflag Hrender.
  rewrite (resolve_escalated lower env u Hflag). fold m1.
  pose proof (analyze_url_url lower env u) as Hu. fold m1 in Hu.
  rewrite <- Hu in Hrender.
  rewrite (analyze_with_browser_returned lower env m1 page Hrender). fold links.
  pose proof (analyze_url_outcome lower env u) as Hout. fold m1 in Hout.
  destruct Hout as [a _ Hnone _ _ | Hst _ | e Hst].
  - rewrite Hnone in Herr. discriminate.
  - rewrite Hst in Hflag. discriminate.
  - rewrite Hst. destruct links as [|first rest]; cbn; repeat split.
Qed.

(** X17. When an HTML page without static links is rendered
    successfully, the result has [success] true and its links are those
    of the rendered loop, possibly none. *)
Theorem rendered_links_after_empty_static (lower : string → string) (env : Env)
    (u : string) (page : Page) :
  let m1 := Agents.analyze_url lower env (mkMachine (initial_state u) []) in
  error (state m1) = None →
  needs_browser (state m1) = Some true →
  render env u = inr page →
  dict_get (Agents.resolve lower env u) "success" = VBool true
  ∧ dict_get (Agents.resolve lower env u) "error" = VNone
  ∧ dict_get (Agents.resolve lower env u) "download_links"
    = VList (Agents.browser_loop lower (elements page)).
Proof.
  intros m1 Herr Hflag Hrender.
  rewrite (resolve_escalated lower env u Hflag). fold m1.
  pose proof (analyze_url_url lower env u) as Hu. fold m1 in Hu.
  rewrite <- Hu in Hrender.
  rewrite (analyze_with_browser_returned lower env m1 page Hrender).
  revert Herr Hflag. subst m1. clear Hu Hrender. unfold_static.
  destruct (urlparse env u) as [e|p]; [done|].
  destruct (_ || _); [done|].
  destruct (requests_get env u) as [e|r]; [done|].
  destruct (http_error r); [done|].
  destruct (Agents.direct_download_check _ _ _) as [is_direct_download filename].
  destruct (Py.contains "text/html" _); [|done].
  destruct (BeautifulSoup env (resp_text r)) as [e|soup]; [done|].
  destruct (bool_decide (absolute_links p _ = [])) eqn:Hnil; [|done].
  apply bool_decide_eq_true_1 in Hnil. rewrite Hnil.
  intros _ _. cbn [state on_state].
  destruct (Agents.browser_loop lower (elements page)) as [|first rest];
    destruct is_direct_download; cbn; repeat split.
Qed.

(** ** The dashboard and the graph side by side *)

(** X18. The dashboard never starts the browser for a direct download:
    for a non-empty input whose static result is a direct download, the
    handler returns the static result and makes no further call. *)
Theorem dashboard_direct_download_skips_browser (lower : string → string)
    (env : Env) (u : string) :
  u ≠ "" →
  dict_get (fst (Streamlit.analyze_url lower env u [])) "is_direct_download"
  = VBool true →
  Streamlit.resolve lower env u = Streamlit.analyze_url lower env u [].
Proof.
  intros Hu Hdd.
  destruct (dashboard_static_fields lower env u)
    as (b & links & Hb & _ & Hrec & _).
  rewrite Hdd in Hb. injection Hb as <-.
  unfold Streamlit.resolve.
  destruct (Streamlit.analyze_url lower env u []) as [result l].
  cbn [fst] in Hrec. rewrite Hrec. cbn [truthy].
  apply String.eqb_neq in Hu. rewrite Hu. cbn [negb].
  by rewrite andb_false_r.
Qed.

(** X19. In the dashboard too a failed static pass keeps its error when
    the browser finds links: the result has [success] false and the
    static message, together with the links of the rendered loop and the
    first of them as recommendation. *)
Theorem dashboard_static_error_kept (lower : string → string) (env : Env)
    (u : string) (e : exn) (page : Page) (first : string) (rest : list string) :
  fst (Streamlit.analyze_url_try lower env u []) = inl e →
  render env u = inr page →
  Agents.browser_loop lower (elements page) = first :: rest →
  let result := fst (Streamlit.resolve lower env u) in
  dict_get result "success" = VBool false
  ∧ dict_get result "error" = VStr ("Error analyzing URL: " +:+ e)
  ∧ dict_get result "download_links" = VList (first :: rest)
  ∧ dict_get result "recommended_link" = VStr first.
Proof.
  intros Htry Hrender Hloop result. subst result.
  unfold Streamlit.resolve, Streamlit.analyze_url.
  destruct (Streamlit.analyze_url_try lower env u []) as [[e'|r] l];
    cbn [fst] in Htry; [|done].
  injection Htry as ->.
  unfold Streamlit.analyze_with_browser, Streamlit.analyze_with_browser_try,
    bind, lift, modify, ret.
  rewrite Hrender, Hloop.
  match goal with
  | |- context [Streamlit.merge ?r ?b] => set (static := r); set (found := b)
  end.
  change (truthy (dict_get static "needs_browser")
          && negb (truthy (dict_get static "recommended_link"))) with true.
  cbn [fst].
  pose proof (merge_links static found) as Hlinks.
  cbn [found Streamlit.br_download_links] in Hlinks.
  destruct Hlinks as [Hdl Hrl].
  rewrite !merge_untouched by done. repeat split; assumption.
Qed.

(** X20. The dashboard takes the title of the rendered page when the
    static result has none, and keeps the static title otherwise. *)
Theorem dashboard_title_adopted (lower : string → string) (env : Env)
    (u : string) (page : Page) :
  let static := fst (Streamlit.analyze_url lower env u []) in
  truthy (dict_get static "needs_browser") = true →
  truthy (dict_get static "recommended_link") = false →
  render env u = inr page →
  page_title page ≠ "" →
  dict_get (fst (Streamlit.resolve lower env u)) "title"
  = if truthy (dict_get static "title") then dict_get static "title"
    else VStr (page_title page).
Proof.
  intros static Hflag Hrec Hrender Htitle. subst static.
  unfold Streamlit.resolve.
  destruct (Streamlit.analyze_url lower env u []) as [result l].
  cbn [fst] in *. rewrite Hflag, Hrec. cbn [negb andb].
  unfold Streamlit.analyze_with_browser, Streamlit.analyze_with_browser_try,
    bind, lift, modify, ret.
  rewrite Hrender. cbn [fst].
  unfold Streamlit.merge. cbn [Streamlit.br_title Streamlit.br_download_links
                               of_opt_str truthy].
  apply String.eqb_neq in Htitle. rewrite Htitle. cbn [negb andb].
  assert (∀ m : gmap string val,
            dict_get m "title" = dict_get result "title" →
            dict_get (if negb (truthy (dict_get m "title"))
                      then <["title" := VStr (page_title page)]> m else m) "title"
            = if truthy (dict_get result "title") then dict_get result "title"
              else VStr (page_title page)) as Hmerge.
  { intros m Hm. rewrite Hm.
    destruct (truthy (dict_get result "title")); cbn [negb]; [exact Hm|].
    unfold dict_get. by rewrite lookup_insert_eq. }
  apply Hmerge.
  destruct (negb _); [|reflexivity].
  unfold dict_get. by rewrite !lookup_insert_ne by done.
Qed.

Lemma dashboard_static_log (lower : string → string) (env : Env) (u : string) :
  snd (Streamlit.analyze_url lower env u []) = []
  ∨ snd (Streamlit.analyze_url lower env u []) = [HttpGet u].
Proof.
  unfold_streamlit.
  destruct (urlparse env u) as [e|p]; [by left|].
  destruct (_ || _); [by left|].
  destruct (requests_get env u) as [e|r]; [by right|].
  destruct (http_error r); [by right|].
  destruct (Agents.direct_download_check _ _ _) as [is_direct_download filename].
  destruct (Py.contains "text/html" _); [|by right].
  destruct (BeautifulSoup env (resp_text r)) as [e|soup]; by right.
Qed.

(** X21. A click on the button makes at most one GET and at most one
    browser session, the GET first, both for the URL typed in. *)
Theorem dashboard_outside_calls (lower : string → string) (env : Env)
    (u : string) :
  let calls := snd (Streamlit.resolve lower env u) in
  calls = [] ∨ calls = [HttpGet u] ∨ calls = [BrowserLaunch u]
  ∨ calls = [HttpGet u; BrowserLaunch u].
Proof.
  pose proof (dashboard_static_log lower env u) as Hlog.
  unfold Streamlit.resolve.
  destruct (Streamlit.analyze_url lower env u []) as [result l].
  cbn [snd] in Hlog.
  destruct (_ && _).
  - unfold Streamlit.analyze_with_browser, Streamlit.analyze_with_browser_try,
      bind, lift, modify, ret.
    destruct (render env u) as [e|page]; cbn [snd];
      destruct Hlog as [-> | ->]; tauto.
  - cbn [snd]. tauto.
Qed.

(** As long as the static pass does not ask for the browser, the graph
    and the body of the handler give the same values to the seven fields
    they share. *)
Lemma resolve_agrees_without_browser (lower : string → string) (env : Env)
    (u k : string) :
  needs_browser (state (Agents.analyze_url lower env
                          (mkMachine (initial_state u) []))) ≠ Some true →
  k ∈ ["success"; "error"; "is_direct_download"; "download_links";
       "recommended_link"; "title"; "content_type"] →
  dict_get (Agents.resolve lower env u) k
  = dict_get (fst (Streamlit.resolve lower env u)) k.
Proof.
  intros Hflag Hk. revert Hflag.
  unfold Agents.resolve, Streamlit.resolve. rewrite ainvoke_END.
  unfold_static. unfold_streamlit.
  assert (k = "success" ∨ k = "error" ∨ k = "is_direct_download"
          ∨ k = "download_links" ∨ k = "recommended_link" ∨ k = "title"
          ∨ k = "content_type") as Hcases.
  { rewrite !elem_of_cons, elem_of_nil in Hk. tauto. }
  clear Hk.
  destruct (urlparse env u) as [e|p]; [by intros []|].
  destruct (_ || _).
  { intros _. destruct Hcases as [->|[->|[->|[->|[->|[->| ->]]]]]]; reflexivity. }
  destruct (requests_get env u) as [e|r]; [by intros []|].
  destruct (http_error r); [by intros []|].
  destruct (Agents.direct_download_check _ _ _) as [is_direct_download filename].
  destruct (Py.contains "text/html" _).
  - destruct (BeautifulSoup env (resp_text r)) as [e|soup]; [by intros []|].
    destruct (absolute_links p (Agents.static_loop lower (a_tags soup)))
      as [|first rest]; [by intros []|].
    intros _.
    destruct is_direct_download;
      destruct Hcases as [->|[->|[->|[->|[->|[->| ->]]]]]]; reflexivity.
  - intros _.
    destruct is_direct_download;
      destruct Hcases as [->|[->|[->|[->|[->|[->| ->]]]]]]; reflexivity.
Qed.

(** ** The further properties on concrete runs *)

Lemma unparsable_url_starts_browser_witness :
  log (snd (Agents.ainvoke Py.ascii_lower Runs.unparsable_env Runs.unparsable_url))
  = [BrowserLaunch "http://[::1"]
  ∧ dict_get (Agents.resolve Py.ascii_lower Runs.unparsable_env Runs.unparsable_url)
      "success" = VBool false
  ∧ dict_get (Agents.resolve Py.ascii_lower Runs.unparsable_env Runs.unparsable_url)
      "error" = VStr "Error analyzing URL: Invalid IPv6 URL".
Proof.
  apply (unparsable_url_starts_browser Py.ascii_lower Runs.unparsable_env
           Runs.unparsable_url "Invalid IPv6 URL").
  reflexivity.
Defined.

Lemma failed_get_starts_browser_witness :
  log (snd (Agents.ainvoke Py.ascii_lower Scenario.both_fail_env Scenario.page_url))
  = [HttpGet "https://example.com/page"; BrowserLaunch "https://example.com/page"]
  ∧ dict_get (Agents.resolve Py.ascii_lower Scenario.both_fail_env Scenario.page_url)
      "success" = VBool false
  ∧ dict_get (Agents.resolve Py.ascii_lower Scenario.both_fail_env Scenario.page_url)
      "error" = VStr "Error analyzing URL: Connection to example.com timed out.".
Proof.
  apply (failed_get_starts_browser Py.ascii_lower Scenario.both_fail_env
           Scenario.page_url (mkParse "https" "example.com" "/page")
           "Connection to example.com timed out.").
  - reflexivity.
  - discriminate.
  - discriminate.
  - left. reflexivity.
Defined.

Lemma static_links_end_the_run_witness :
  let result := Agents.resolve Py.ascii_lower Scenario.page_env Scenario.page_url in
  log (snd (Agents.ainvoke Py.ascii_lower Scenario.page_env Scenario.page_url))
  = [HttpGet "https://example.com/page"]
  ∧ dict_get result "success" = VBool true
  ∧ dict_get result "download_links" = VList ["https://example.com/files/doc.pdf"]
  ∧ dict_get result "title" = VStr "Files"
  ∧ dict_get result "content_type" = VStr "text/html; charset=utf-8"
  ∧ dict_get result "recommended_link" = VStr "https://example.com/files/doc.pdf".
Proof.
  apply (static_links_end_the_run Py.ascii_lower Scenario.page_env
           Scenario.page_url (mkParse "https" "example.com" "/page")
           (mkResponse (Some "text/html; charset=utf-8") None
              "<html>...</html>" 200 16 None)
           (mkSoup (Some "Files") [mkATag "files/doc.pdf" "download" None])
           "files/doc.pdf" []).
  - reflexivity.
  - discriminate.
  - discriminate.
  - reflexivity.
  - reflexivity.
  - reflexivity.
  - reflexivity.
  - reflexivity.
Defined.

Lemma non_html_ends_the_run_witness :
  let result := Agents.resolve Py.ascii_lower Scenario.zip_env Scenario.zip_url in
  log (snd (Agents.ainvoke Py.ascii_lower Scenario.zip_env Scenario.zip_url))
  = [HttpGet "https://cdn.example.com/file.zip"]
  ∧ dict_get result "success" = VBool true
  ∧ dict_get result "title" = VNone
  ∧ dict_get result "download_links" = VList []
  ∧ dict_get result "is_direct_download" = VBool true
  ∧ dict_get result "recommended_link" = VStr "https://cdn.example.com/file.zip".
Proof.
  apply (non_html_ends_the_run Py.ascii_lower Scenario.zip_env Scenario.zip_url
           (mkParse "https" "cdn.example.com" "/file.zip")
           (mkResponse (Some "application/zip") None "PK" 200 2 None)).
  - reflexivity.
  - discriminate.
  - discriminate.
  - reflexivity.
  - reflexivity.
  - reflexivity.
Defined.

Lemma rendered_pass_keeps_analysis_witness :
  let result := Agents.resolve Py.ascii_lower Runs.scripted_env Scenario.page_url in
  Agents.needs_browser_router
    (state (Agents.analyze_url Py.ascii_lower Runs.scripted_env
              (mkMachine (initial_state Scenario.page_url) [])))
  = N_analyze_with_browser
  ∧ dict_get result "title" = VNone
  ∧ dict_get result "content_type" = VStr "text/html"
  ∧ dict_get result "is_direct_download" = VBool false.
Proof.
  split; [reflexivity|].
  apply (rendered_pass_keeps_analysis Py.ascii_lower Runs.scripted_env
           Scenario.page_url
           (default ∅ (analysis (state
              (Agents.analyze_url Py.ascii_lower Runs.scripted_env
                 (mkMachine (initial_state Scenario.page_url) [])))))).
  reflexivity.
Defined.

Lemma rendered_page_after_static_error_witness :
  let result := Agents.resolve Py.ascii_lower Scenario.recovered_env Scenario.page_url in
  dict_get result "title" = VStr "Downloads"
  ∧ dict_get result "content_type" = VNone
  ∧ dict_get result "is_direct_download" = VBool false
  ∧ dict_get result "download_links"
    = VList ["https://example.com/files/setup.exe"; "https://example.com/get?id=7"]
  ∧ dict_get result "recommended_link" = VStr "https://example.com/files/setup.exe".
Proof.
  apply (rendered_page_after_static_error Py.ascii_lower Scenario.recovered_env
           Scenario.page_url
           "Error analyzing URL: 403 Client Error: Forbidden for url: https://example.com/page"
           (mkPage "Downloads"
              [("https://example.com/about", "About us");
               ("https://example.com/files/setup.exe", "Installer");
               ("https://example.com/get?id=7", "Download now")])).
  - reflexivity.
  - reflexivity.
  - reflexivity.
Defined.

Lemma rendered_links_after_empty_static_witness :
  let result := Agents.resolve Py.ascii_lower Runs.scripted_env Scenario.page_url in
  dict_get result "success" = VBool true
  ∧ dict_get result "error" = VNone
  ∧ dict_get result "download_links"
    = VList ["https://example.com/files/setup.exe"].
Proof.
  apply (rendered_links_after_empty_static Py.ascii_lower Runs.scripted_env
           Scenario.page_url
           (mkPage "Downloads"
              [("https://example.com/about", "About us");
               ("https://example.com/files/setup.exe", "Installer")])).
  - reflexivity.
  - reflexivity.
  - reflexivity.
Defined.

Lemma dashboard_direct_download_skips_browser_witness :
  Scenario.zip_url ≠ ""
  ∧ snd (Streamlit.resolve Py.ascii_lower Scenario.zip_env Scenario.zip_url)
    = [HttpGet "https://cdn.example.com/file.zip"]
  ∧ Streamlit.resolve Py.ascii_lower Scenario.zip_env Scenario.zip_url
    = Streamlit.analyze_url Py.ascii_lower Scenario.zip_env Scenario.zip_url [].
Proof.
  split; [discriminate|]. split; [reflexivity|].
  apply (dashboard_direct_download_skips_browser Py.ascii_lower Scenario.zip_env
           Scenario.zip_url).
  - discriminate.
  - reflexivity.
Defined.

Lemma dashboard_static_error_kept_witness :
  let result := fst (Streamlit.resolve Py.ascii_lower Scenario.recovered_env
                       Scenario.page_url) in
  dict_get result "success" = VBool false
  ∧ dict_get result "error"
    = VStr "Error analyzing URL: 403 Client Error: Forbidden for url: https://example.com/page"
  ∧ dict_get result "download_links"
    = VList ["https://example.com/files/setup.exe"; "https://example.com/get?id=7"]
  ∧ dict_get result "recommended_link" = VStr "https://example.com/files/setup.exe".
Proof.
  apply (dashboard_static_error_kept Py.ascii_lower Scenario.recovered_env
           Scenario.page_url
           "403 Client Error: Forbidden for url: https://example.com/page"
           (mkPage "Downloads"
              [("https://example.com/about", "About us");
               ("https://example.com/files/setup.exe", "Installer");
               ("https://example.com/get?id=7", "Download now")])
           "https://example.com/files/setup.exe" ["https://example.com/get?id=7"]).
  - reflexivity.
  - reflexivity.
  - reflexivity.
Defined.

Lemma dashboard_title_adopted_witness :
  dict_get (fst (Streamlit.analyze_url Py.ascii_lower Runs.scripted_env
                   Scenario.page_url [])) "title" = VNone
  ∧ dict_get (fst (Streamlit.resolve Py.ascii_lower Runs.scripted_env
                     Scenario.page_url)) "title" = VStr "Downloads".
Proof.
  split; [reflexivity|].
  apply (dashboard_title_adopted Py.ascii_lower Runs.scripted_env Scenario.page_url
           (mkPage "Downloads"
              [("https://example.com/about", "About us");
               ("https://example.com/files/setup.exe", "Installer")])).
  - reflexivity.
  - reflexivity.
  - reflexivity.
  - discriminate.
Defined.

Lemma dashboard_direct_download_link_witness :
  Streamlit.button_handler Py.ascii_lower Scenario.zip_env Scenario.zip_url
  = Some (Streamlit.resolve Py.ascii_lower Scenario.zip_env Scenario.zip_url)
  ∧ dict_get (fst (Streamlit.resolve Py.ascii_lower Scenario.zip_env Scenario.zip_url))
      "is_direct_download" = VBool true
  ∧ dict_get (fst (Streamlit.resolve Py.ascii_lower Scenario.zip_env Scenario.zip_url))
      "recommended_link" = VStr "https://cdn.example.com/file.zip".
Proof.
  split; [reflexivity|]. split; [reflexivity|].
  apply (dashboard_direct_download_link Py.ascii_lower Scenario.zip_env
           Scenario.zip_url
           (fst (Streamlit.resolve Py.ascii_lower Scenario.zip_env Scenario.zip_url))
           (snd (Streamlit.resolve Py.ascii_lower Scenario.zip_env Scenario.zip_url))).
  - reflexivity.
  - reflexivity.
Defined.

Lemma dashboard_first_link_witness :
  let result := fst (Streamlit.resolve Py.ascii_lower Runs.scripted_env
                       Scenario.page_url) in
  dict_get result "is_direct_download" = VBool false
  ∧ dict_get result "download_links" = VList ["https://example.com/files/setup.exe"]
  ∧ ∃ links,
      dict_get result "download_links" = VList links
      ∧ dict_get result "recommended_link"
        = match links with
          | [] => VNone
          | first :: _ => VStr first
          end.
Proof.
  split; [reflexivity|]. split; [reflexivity|].
  apply (dashboard_first_link Py.ascii_lower Runs.scripted_env Scenario.page_url).
  reflexivity.
Defined.

Lemma dashboard_flag_witness :
  dict_get (fst (Streamlit.analyze_url Py.ascii_lower Scenario.export_env
                   Scenario.export_url [])) "needs_browser"
  = VBool true.
Proof.
  apply (dashboard_flag Py.ascii_lower Scenario.export_env Scenario.export_url
           (mkParse "https" "example.com" "/export") Scenario.export_response
           (mkSoup None [])).
  - reflexivity.
  - discriminate.
  - discriminate.
  - reflexivity.
  - reflexivity.
  - reflexivity.
Defined.

(** ** The handler of the dashboard on its real inputs *)

Lemma button_handler_runs (lower : string → string) (env : Env) (u : string)
    (result : gmap string val) (l : list event) :
  Streamlit.button_handler lower env u = Some (result, l) →
  u ≠ "" ∧ Streamlit.resolve lower env u = (result, l).
Proof.
  unfold Streamlit.button_handler.
  destruct (String.eqb u "") eqn:Hu; [done|].
  intros [= Hres]. split; [by apply String.eqb_neq | exact Hres].
Qed.

(** X26. When the handler of the dashboard runs (the input is not
    empty) on an input whose parse has no scheme or no host, its result
    has [success] false and the error [Invalid URL format], and no call
    leaves the process. *)
Theorem dashboard_rejects_invalid_url (lower : string → string) (env : Env)
    (u : string) (parsed_url : ParseResult) (result : gmap string val)
    (l : list event) :
  Streamlit.button_handler lower env u = Some (result, l) →
  urlparse env u = inr parsed_url →
  scheme parsed_url = "" ∨ netloc parsed_url = "" →
  l = []
  ∧ dict_get result "success" = VBool false
  ∧ dict_get result "error" = VStr "Invalid URL format".
Proof.
  intros Hrun Hp Hbad.
  apply button_handler_runs in Hrun as [_ Hres].
  pose proof (resolve_rejects_invalid_url lower env u parsed_url Hp Hbad)
    as (Hlog & Hsucc & Herr).
  rewrite Hres in Hlog, Hsucc, Herr. done.
Qed.

Lemma dashboard_rejects_invalid_url_witness :
  Streamlit.button_handler Py.ascii_lower Scenario.bare_env Scenario.bare_url
  = Some (Streamlit.resolve Py.ascii_lower Scenario.bare_env Scenario.bare_url)
  ∧ snd (Streamlit.resolve Py.ascii_lower Scenario.bare_env Scenario.bare_url) = []
  ∧ dict_get (fst (Streamlit.resolve Py.ascii_lower Scenario.bare_env
                     Scenario.bare_url)) "success" = VBool false
  ∧ dict_get (fst (Streamlit.resolve Py.ascii_lower Scenario.bare_env
                     Scenario.bare_url)) "error" = VStr "Invalid URL format".
Proof.
  split; [reflexivity|].
  apply (dashboard_rejects_invalid_url Py.ascii_lower Scenario.bare_env
           Scenario.bare_url (mkParse "" "" "example.com/file")
           (fst (Streamlit.resolve Py.ascii_lower Scenario.bare_env Scenario.bare_url))
           (snd (Streamlit.resolve Py.ascii_lower Scenario.bare_env Scenario.bare_url))).
  - reflexivity.
  - reflexivity.
  - left. reflexivity.
Defined.

(** X22. When the handler of the dashboard runs (the input is not
    empty) and the static pass does not ask for the browser, the graph
    and the dashboard give the same answer: the seven fields they share
    have the same values. *)
Theorem front_ends_agree_without_browser (lower : string → string) (env : Env)
    (u k : string) (result : gmap string val) (l : list event) :
  Streamlit.button_handler lower env u = Some (result, l) →
  needs_browser (state (Agents.analyze_url lower env
                          (mkMachine (initial_state u) []))) ≠ Some true →
  k ∈ ["success"; "error"; "is_direct_download"; "download_links";
       "recommended_link"; "title"; "content_type"] →
  dict_get (Agents.resolve lower env u) k = dict_get result k.
Proof.
  intros Hrun Hflag Hk.
  apply button_handler_runs in Hrun as [_ Hres].
  rewrite (resolve_agrees_without_browser lower env u k Hflag Hk).
  by rewrite Hres.
Qed.

Lemma front_ends_agree_without_browser_witness :
  Streamlit.button_handler Py.ascii_lower Scenario.page_env Scenario.page_url
  = Some (Streamlit.resolve Py.ascii_lower Scenario.page_env Scenario.page_url)
  ∧ dict_get (Agents.resolve Py.ascii_lower Scenario.page_env Scenario.page_url)
      "recommended_link" = VStr "https://example.com/files/doc.pdf"
  ∧ dict_get (Agents.resolve Py.ascii_lower Scenario.page_env Scenario.page_url)
      "recommended_link"
    = dict_get (fst (Streamlit.resolve Py.ascii_lower Scenario.page_env
                       Scenario.page_url)) "recommended_link".
Proof.
  split; [reflexivity|]. split; [reflexivity|].
  apply (front_ends_agree_without_browser Py.ascii_lower Scenario.page_env
           Scenario.page_url "recommended_link"
           (fst (Streamlit.resolve Py.ascii_lower Scenario.page_env Scenario.page_url))
           (snd (Streamlit.resolve Py.ascii_lower Scenario.page_env Scenario.page_url))).
  - reflexivity.
  - discriminate.
  - apply list_elem_of_further, list_elem_of_further, list_elem_of_further,
      list_elem_of_further, list_elem_of_here.
Defined.

(** ** The relative rule and the scheme of the stored links *)

Lemma split_app_separator (sep : ascii) (d t : string) :
  Py.split sep (d +:+ String sep t) = (Py.split sep d ++ Py.split sep t)%list.
Proof.
  induction d as [|c d IH].
  - change ("" +:+ String sep t) with (String sep t).
    cbn [Py.split]. by rewrite Ascii.eqb_refl.
  - change (String c d +:+ String sep t) with (String c (d +:+ String sep t)).
    cbn [Py.split]. rewrite IH.
    destruct (Ascii.eqb c sep); [reflexivity|].
    pose proof (split_not_nil sep d) as Hnil.
    by destruct (Py.split sep d).
Qed.

Lemma not_slash_not_double_slash (link : string) :
  Py.startswith link "/" = false → Py.startswith link "//" = false.
Proof.
  intros Hone. destruct (Py.startswith link "//") eqn:Htwo; [|reflexivity].
  apply startswith_spec in Htwo as [post ->]. discriminate Hone.
Qed.

(** X1. An href that starts neither with the letters [http] nor with a
    slash is resolved against the directory of the base path: for a base
    path [d/last], where [last] holds no slash, the result is
    scheme://host, then [d/], then the href, so the last segment is
    replaced; for a base path without any slash (the empty path of a bare
    host) it is scheme://host/ and the href. *)
Theorem relative_link_against_directory (parsed_base : ParseResult)
    (link d last : string) :
  Py.startswith link "http" = false →
  Py.startswith link "/" = false →
  Py.contains "/" last = false →
  (path parsed_base = d +:+ "/" +:+ last →
   absolute_link parsed_base link
   = scheme parsed_base +:+ "://" +:+ netloc parsed_base +:+ d +:+ "/" +:+ link)
  ∧ (path parsed_base = last →
     absolute_link parsed_base link
     = scheme parsed_base +:+ "://" +:+ netloc parsed_base +:+ "/" +:+ link).
Proof.
  intros Hhttp Hslash Hlast.
  unfold absolute_link, base_domain, Py.all_but_last.
  rewrite Hhttp, (not_slash_not_double_slash link Hslash), Hslash.
  split; intros ->.
  - change (d +:+ "/" +:+ last) with (d +:+ String "/" last).
    rewrite split_app_separator, (split_without_separator "/" last Hlast).
    rewrite removelast_last, (join_split "/" d).
    by rewrite !append_assoc.
  - rewrite (split_without_separator "/" last Hlast).
    cbn [removelast Py.join]. by rewrite !append_assoc.
Qed.

Lemma relative_link_against_directory_witness :
  path Scenario.base_page = "/dir" +:+ "/" +:+ "page"
  ∧ absolute_link Scenario.base_page "files/doc.pdf"
    = "https://example.com/dir/files/doc.pdf"
  ∧ absolute_link (mkParse "https" "example.com" "") "files/doc.pdf"
    = "https://example.com/files/doc.pdf".
Proof.
  split; [reflexivity|].
  split.
  - apply (relative_link_against_directory Scenario.base_page
             "files/doc.pdf" "/dir" "page"); reflexivity.
  - apply (relative_link_against_directory
             (mkParse "https" "example.com" "") "files/doc.pdf" "" "");
      reflexivity.
Defined.

Lemma absolute_link_gets_scheme (parsed_base : ParseResult) (link : string) :
  Py.startswith link "http" = false →
  Py.startswith (absolute_link parsed_base link) (scheme parsed_base +:+ "://")
  = true.
Proof.
  intros Hhttp. unfold absolute_link, base_domain. rewrite Hhttp.
  apply startswith_spec.
  destruct (Py.startswith link "//") eqn:Htwo.
  - apply startswith_spec in Htwo as [post ->].
    exists post. by rewrite !append_assoc.
  - destruct (Py.startswith link "/"); eexists; by rewrite !append_assoc.
Qed.

Lemma absolute_links_stored_for (parsed_base : ParseResult) (hrefs : list string) :
  Forall2 (stored_for parsed_base) hrefs (absolute_links parsed_base hrefs).
Proof.
  induction hrefs as [|h rest IH]; [constructor|].
  cbn [absolute_links map]. constructor; [|exact IH].
  unfold stored_for. destruct (Py.startswith h "http") eqn:Hhttp.
  - left. split; [reflexivity|]. unfold absolute_link. by rewrite Hhttp.
  - right. split; [reflexivity|]. by apply absolute_link_gets_scheme.
Qed.

(** X4. The links the static pass stores are, one for one and in order,
    the hrefs its loop collected from the parsed document, normalised: an
    href that starts with the letters [http] is stored unchanged (a
    relative one such as [httpfile.zip] too), and every other href is
    stored with the scheme of the page URL and [://] in front. *)
Theorem static_links_are_normalised_hrefs (lower : string → string) (env : Env)
    (u : string) (parsed_url : ParseResult) (links : list string) :
  urlparse env u = inr parsed_url →
  download_links (state (Agents.analyze_url lower env
                           (mkMachine (initial_state u) []))) = Some links →
  ∃ response soup,
    requests_get env u = inr response
    ∧ BeautifulSoup env (resp_text response) = inr soup
    ∧ links = absolute_links parsed_url (Agents.static_loop lower (a_tags soup))
    ∧ Forall2 (stored_for parsed_url)
        (Agents.static_loop lower (a_tags soup)) links.
Proof.
  intros Hp. unfold_static. rewrite Hp.
  destruct (_ || _); [done|].
  destruct (requests_get env u) as [e|r]; [done|].
  destruct (http_error r); [done|].
  destruct (Agents.direct_download_check _ _ _) as [is_direct_download filename].
  destruct (Py.contains "text/html" _); [|done].
  destruct (BeautifulSoup env (resp_text r)) as [e|soup] eqn:Hsoup; [done|].
  destruct (bool_decide _); cbn; intros [= <-]; exists r, soup;
    (split; [reflexivity|]); (split; [exact Hsoup|]);
    (split; [reflexivity | apply absolute_links_stored_for]).
Qed.

Lemma static_links_are_normalised_hrefs_witness :
  let hrefs := ["httpfile.zip"; "files/doc.pdf"; "//cdn.example.com/a.zip"] in
  let env := Scenario.fixed_env
               (inr (mkParse "https" "example.com" "/page"))
               (inr (mkResponse (Some "text/html") None "<html>...</html>" 200 16 None))
               (inr (mkSoup None ((λ h, mkATag h "download" None) <$> hrefs)))
               (inl "not called") in
  download_links (state (Agents.analyze_url Py.ascii_lower env
                           (mkMachine (initial_state Scenario.page_url) [])))
  = Some ["httpfile.zip"; "https://example.com/files/doc.pdf";
          "https://cdn.example.com/a.zip"]
  ∧ ∃ response soup,
      requests_get env Scenario.page_url = inr response
      ∧ BeautifulSoup env (resp_text response) = inr soup
      ∧ ["httpfile.zip"; "https://example.com/files/doc.pdf";
         "https://cdn.example.com/a.zip"]
        = absolute_links (mkParse "https" "example.com" "/page")
            (Agents.static_loop Py.ascii_lower (a_tags soup))
      ∧ Forall2 (stored_for (mkParse "https" "example.com" "/page"))
          (Agents.static_loop Py.ascii_lower (a_tags soup))
          ["httpfile.zip"; "https://example.com/files/doc.pdf";
           "https://cdn.example.com/a.zip"].
Proof.
  intros hrefs env. split; [reflexivity|].
  apply (static_links_are_normalised_hrefs Py.ascii_lower env Scenario.page_url
           (mkParse "https" "example.com" "/page")).
  - reflexivity.
  - reflexivity.
Defined.

(** ** A failed static pass followed by a failed rendering *)

Lemma static_try_raised (lower : string → string) (env : Env) (u : string)
    (e : exn) :
  fst (Agents.analyze_url_try lower env u (mkMachine (initial_state u) [])) = inl e →
  state (Agents.analyze_url lower env (mkMachine (initial_state u) []))
  = set_needs_browser true
      (set_error ("Error analyzing URL: " +:+ e) (initial_state u))
  ∧ fst (Streamlit.analyze_url_try lower env u []) = inl e.
Proof.
  unfold_static. unfold_streamlit.
  destruct (urlparse env u) as [e0|p]; [by intros [= ->]|].
  destruct (_ || _); [done|].
  destruct (requests_get env u) as [e0|r]; [by intros [= ->]|].
  destruct (http_error r); [by intros [= ->]|].
  destruct (Agents.direct_download_check _ _ _) as [is_direct_download filename].
  destruct (Py.contains "text/html" _); [|done].
  destruct (BeautifulSoup env (resp_text r)) as [e0|soup]; [by intros [= ->]|].
  by destruct (bool_decide _).
Qed.

Lemma dashboard_after_two_failures (lower : string → string) (env : Env)
    (u : string) (e_static e_render : exn) :
  fst (Streamlit.analyze_url_try lower env u []) = inl e_static →
  render env u = inl e_render →
  dict_get (fst (Streamlit.resolve lower env u)) "success" = VBool false
  ∧ dict_get (fst (Streamlit.resolve lower env u)) "error"
    = VStr ("Error analyzing URL: " +:+ e_static).
Proof.
  intros Htry Hrender.
  unfold Streamlit.resolve, Streamlit.analyze_url.
  destruct (Streamlit.analyze_url_try lower env u []) as [[e'|r] l];
    cbn [fst] in Htry; [|done].
  injection Htry as ->.
  unfold Streamlit.analyze_with_browser, Streamlit.analyze_with_browser_try,
    bind, lift, modify, ret.
  rewrite Hrender. split; reflexivity.
Qed.

Lemma static_message_is_not_render_message (e_static e_render : exn) :
  VStr ("Error analyzing URL: " +:+ e_static)
  ≠ VStr ("Error analyzing URL with browser: " +:+ e_render).
Proof. intros H. discriminate H. Qed.

(** C1, as both copies have it. When the static pass has raised and the
    rendering raises too, the result has [success] false and its error is
    the message of the static pass behind [Error analyzing URL: ]; the
    message of the rendering is not in it. This holds for the graph and,
    whenever its handler runs, for the dashboard. *)
Theorem static_error_outlives_render_error (lower : string → string)
    (env : Env) (u : string) (e_static e_render : exn) :
  fst (Agents.analyze_url_try lower env u (mkMachine (initial_state u) []))
  = inl e_static →
  render env u = inl e_render →
  (dict_get (Agents.resolve lower env u) "success" = VBool false
   ∧ dict_get (Agents.resolve lower env u) "error"
     = VStr ("Error analyzing URL: " +:+ e_static)
   ∧ dict_get (Agents.resolve lower env u) "error"
     ≠ VStr ("Error analyzing URL with browser: " +:+ e_render))
  ∧ (∀ result l,
       Streamlit.button_handler lower env u = Some (result, l) →
       dict_get result "success" = VBool false
       ∧ dict_get result "error" = VStr ("Error analyzing URL: " +:+ e_static)
       ∧ dict_get result "error"
         ≠ VStr ("Error analyzing URL with browser: " +:+ e_render)).
Proof.
  intros Htry Hrender.
  destruct (static_try_raised lower env u e_static Htry) as [Hstate Hdash].
  split.
  - destruct (resolve_with_static_error lower env u
                ("Error analyzing URL: " +:+ e_static)) as [Hsucc Herr];
      [by rewrite Hstate | done | by rewrite Hstate |].
    split; [exact Hsucc|]. split; [exact Herr|].
    rewrite Herr. apply static_message_is_not_render_message.
  - intros result l Hrun.
    apply button_handler_runs in Hrun as [_ Hres].
    destruct (dashboard_after_two_failures lower env u e_static e_render
                Hdash Hrender) as [Hsucc Herr].
    rewrite Hres in Hsucc, Herr. cbn [fst] in Hsucc, Herr.
    split; [exact Hsucc|]. split; [exact Herr|].
    rewrite Herr. apply static_message_is_not_render_message.
Qed.

Lemma static_error_outlives_render_error_witness :
  let graph := Agents.resolve Py.ascii_lower Scenario.both_fail_env Scenario.page_url in
  fst (Agents.analyze_url_try Py.ascii_lower Scenario.both_fail_env Scenario.page_url
         (mkMachine (initial_state Scenario.page_url) []))
  = inl "Connection to example.com timed out."
  ∧ Streamlit.button_handler Py.ascii_lower Scenario.both_fail_env Scenario.page_url
    = Some (Streamlit.resolve Py.ascii_lower Scenario.both_fail_env Scenario.page_url)
  ∧ (dict_get graph "success" = VBool false
     ∧ dict_get graph "error"
       = VStr ("Error analyzing URL: " +:+ "Connection to example.com timed out.")
     ∧ dict_get graph "error"
       ≠ VStr ("Error analyzing URL with browser: " +:+ "Browser closed unexpectedly"))
  ∧ (∀ result l,
       Streamlit.button_handler Py.ascii_lower Scenario.both_fail_env
         Scenario.page_url = Some (result, l) →
       dict_get result "success" = VBool false
       ∧ dict_get result "error"
         = VStr ("Error analyzing URL: " +:+ "Connection to example.com timed out.")
       ∧ dict_get result "error"
         ≠ VStr ("Error analyzing URL with browser: " +:+ "Browser closed unexpectedly")).
Proof.
  intros graph. split; [reflexivity|]. split; [reflexivity|].
  apply (static_error_outlives_render_error Py.ascii_lower Scenario.both_fail_env
           Scenario.page_url "Connection to example.com timed out."
           "Browser closed unexpectedly").
  - reflexivity.
  - reflexivity.
Defined.

(** C1 fails as stated where the static fetch and the rendering both
    fail: in the graph and in the dashboard the error is the message of
    the GET, and the message of the rendering occurs nowhere in it. *)
Lemma render_error_not_reflected_counterexample :
  let graph := Agents.resolve Py.ascii_lower Scenario.both_fail_env Scenario.page_url in
  let dashboard := fst (Streamlit.resolve Py.ascii_lower Scenario.both_fail_env
                          Scenario.page_url) in
  let shown := "Error analyzing URL: Connection to example.com timed out." in
  render Scenario.both_fail_env Scenario.page_url = inl "Browser closed unexpectedly"
  ∧ dict_get graph "success" = VBool false
  ∧ dict_get graph "error" = VStr shown
  ∧ dict_get dashboard "success" = VBool false
  ∧ dict_get dashboard "error" = VStr shown
  ∧ Py.contains "Browser closed unexpectedly" shown = false
  ∧ Py.contains "browser" shown = false
  ∧ VStr shown
    ≠ VStr "Error analyzing URL with browser: Browser closed unexpectedly".
Proof. vm_compute. repeat split. discriminate. Qed.
